(** * TorchRec Cookbook utilities: a shallow embedding and its properties

    The repository is a set of thin helpers over a tensor framework:
    [Cookbook/utils/data_generators.py], [debugging.py], [environment.py]
    and [benchmark.py].  The helpers are embedded as functions in a
    state-and-exception monad over the process-wide state they touch (the
    framework's default random generator, the device runtime, the
    distributed process group), and the framework primitives they call are
    modelled next to them, with the behaviour the framework documents. *)

From Stdlib Require Import ZArith Lia.
From Stdlib Require QArith.
From stdpp Require Import gmap strings list.

Local Open Scope Z_scope.

(** ** Python values: exceptions and results *)

Module Py.

(** The exceptions that the modelled code paths can raise. *)
Inductive exn : Type :=
| NameError (name : string)
    (* name '<name>' is not defined *)
| OverflowError
    (* Overflow when unpacking long: an int that does not fit the
       64-bit argument of a framework primitive *)
| NegativeDimension (n : Z)
    (* Trying to create tensor with negative dimension <n> *)
| RandomRangeError (from to : Z)
    (* random_ expects 'from' to be less than 'to' *)
| AllocationError (entries : Z)
    (* the storage of a tensor of <entries> entries is refused: its size
       overflows or the allocator cannot provide it *)
| EmptyTensorList
    (* torch.cat(): expected a non-empty list of Tensors *)
| CudaUnavailable
    (* a device call on a machine without an initialized accelerator *)
| ProcessGroupNotInitialized
    (* Default process group has not been initialized *)
| ZeroDivisionError.

Inductive res (A : Type) : Type :=
| Ok (a : A)
| Raise (e : exn).
Arguments Ok {A} a.
Arguments Raise {A} e.

(** A computation over a process-wide state [S]: it returns a value or
    raises, and the state survives an exception, as it does in Python. *)
Definition M (S A : Type) : Type := S -> res A * S.

Definition ret {S A} (a : A) : M S A := fun s => (Ok a, s).

Definition raise {S A} (e : exn) : M S A := fun s => (Raise e, s).

Definition bind {S A B} (c : M S A) (k : A -> M S B) : M S B :=
  fun s =>
    match c s with
    | (Ok a, s') => k a s'
    | (Raise e, s') => (Raise e, s')
    end.

(** [[f(x) for x in xs]]: the calls run left to right. *)
Fixpoint list_comp {S A B} (f : A -> M S B) (xs : list A) : M S (list B) :=
  match xs with
  | [] => ret []
  | x :: xs' =>
      bind (f x) (fun y =>
      bind (list_comp f xs') (fun ys =>
      ret (y :: ys)))
  end.

(** [for _ in range(n): body] *)
Fixpoint for_range {S} (n : nat) (body : M S unit) : M S unit :=
  match n with
  | O => ret tt
  | S n' => bind body (fun _ => for_range n' body)
  end.

(** *** Name resolution while a module is loaded

    A namespace is the list of the names bound in it, in the order in
    which they were bound (the keys of the [globals()] dictionary, or of a
    class body's locals).  A module body and a class body are
    computations over the namespace they fill; [outer] is the enclosing
    module namespace of a class body and is empty for the module body
    itself.  Annotations are evaluated when the definition they belong to
    is executed. *)

Definition namespace : Type := list string.

(** The names every module starts with. *)
Definition module_dunders : namespace :=
  ["__name__"; "__doc__"; "__package__"; "__loader__";
   "__spec__"; "__file__"; "__cached__"; "__builtins__"]%string.

(** The names a class body starts with. *)
Definition class_dunders : namespace :=
  ["__module__"; "__qualname__"]%string.

(** The built-in functions, types and constants. *)
Definition builtins : namespace :=
  ["abs"; "aiter"; "all"; "anext"; "any"; "ascii"; "bin"; "bool";
   "breakpoint"; "bytearray"; "bytes"; "callable"; "chr"; "classmethod";
   "compile"; "complex"; "delattr"; "dict"; "dir"; "divmod"; "enumerate";
   "eval"; "exec"; "filter"; "float"; "format"; "frozenset"; "getattr";
   "globals"; "hasattr"; "hash"; "help"; "hex"; "id"; "input"; "int";
   "isinstance"; "issubclass"; "iter"; "len"; "list"; "locals"; "map";
   "max"; "memoryview"; "min"; "next"; "object"; "oct"; "open"; "ord";
   "pow"; "print"; "property"; "range"; "repr"; "reversed"; "round";
   "set"; "setattr"; "slice"; "sorted"; "staticmethod"; "str"; "sum";
   "super"; "tuple"; "type"; "vars"; "zip"; "__import__";
   "True"; "False"; "None"; "Ellipsis"; "NotImplemented";
   "__debug__"]%string.

(** Reading a name: the namespace being filled, then the enclosing
    module's, then the built-ins. *)
Definition load_name (outer : namespace) (name : string)
  : M namespace unit :=
  fun ns =>
    if decide (name ∈ ns ++ outer ++ builtins) then (Ok tt, ns)
    else (Raise (NameError name), ns).

Definition store_name (name : string) : M namespace unit :=
  fun ns => (Ok tt, if decide (name ∈ ns) then ns else ns ++ [name]).

Fixpoint load_names (outer : namespace) (names : list string)
  : M namespace unit :=
  match names with
  | [] => ret tt
  | n :: names' => bind (load_name outer n) (fun _ => load_names outer names')
  end.

(** [import name]; the module is taken to be importable. *)
Definition import_name (name : string) : M namespace unit :=
  store_name name.

(** [from module import n1, n2, ...] *)
Fixpoint import_from (module : string) (names : list string)
  : M namespace unit :=
  match names with
  | [] => ret tt
  | n :: names' => bind (store_name n) (fun _ => import_from module names')
  end.

(** [name: annotation] in a class body: the annotation is evaluated. *)
Definition ann_assign (outer : namespace) (name : string)
    (annotation : list string) : M namespace unit :=
  load_names outer annotation.

(** [@decorators def name(params) -> returns]: the decorators are
    evaluated, then the annotations of the parameters in order and the
    return annotation, and the name is bound.  An annotation is given by
    the names its expression reads, in evaluation order; the function
    body is not run. *)
Definition function_def (outer : namespace) (decorators : list string)
    (name : string) (annotations : list (list string))
  : M namespace unit :=
  bind (load_names outer decorators) (fun _ =>
  bind (load_names outer (concat annotations)) (fun _ =>
  store_name name)).

(** [@decorators class name: body]: the decorators are evaluated, the
    body runs in a namespace of its own inside the module's, and the
    name is bound in the module when the body has run. *)
Definition class_def (decorators : list string) (name : string)
    (body : namespace -> M namespace unit) : M namespace unit :=
  bind (load_names [] decorators) (fun _ =>
  fun globals =>
    match body globals class_dunders with
    | (Ok _, _) => store_name name globals
    | (Raise e, _) => (Raise e, globals)
    end).

(** Loading a module: its body runs on a fresh namespace. *)
Definition load_module (body : M namespace unit) : res namespace :=
  match body module_dunders with
  | (Ok _, globals) => Ok globals
  | (Raise e, _) => Raise e
  end.

End Py.

Notation "'let*' x ':=' c 'in' k" := (Py.bind c (fun x => k))
  (at level 10, x name, c at level 100, k at level 200, only parsing).

(** ** The tensor framework's primitives used by the helpers *)

Module Torch.
Import Py.

(** 64-bit integers, as the framework stores them (dtype int64). *)
Definition int64_min : Z := - 2 ^ 63.
Definition int64_max : Z := 2 ^ 63 - 1.

Definition is_int64 (z : Z) : bool := (int64_min <=? z) && (z <=? int64_max).

(** Two's complement wrap-around of an integer to 64 bits. *)
Definition wrap64 (z : Z) : Z := (z + 2 ^ 63) mod 2 ^ 64 - 2 ^ 63.

(** A one-dimensional int64 tensor is the list of its entries. *)
Definition tensor : Type := list Z.

(** [len(t)] *)
Definition len (t : tensor) : Z := Z.of_nat (length t).

(** [t.sum().item()]: the sum is accumulated in int64. *)
Definition sum (t : tensor) : Z := wrap64 (foldr Z.add 0 t).

(** The default random generator: a state, seeding, a draw of one 32-bit
    word, and the range from which an entry takes a 64-bit draw (2^28 in
    the released builds of the framework, 2^32 in others). *)
Class Generator : Type := {
  gen_state : Type;
  gen_seed : Z -> gen_state;
  gen_random : gen_state -> Z * gen_state;
  gen_wide_range : Z
}.

(** The allocator of the process: the numbers of int64 entries for which
    it provides the storage of a tensor.  A tensor without entry takes no
    storage and is always granted. *)
Class Allocator : Type := {
  can_allocate : Z -> bool
}.

Definition grants {A : Allocator} (entries : Z) : bool :=
  (entries =? 0) || can_allocate entries.

Section Primitives.
Context {G : Generator} {A : Allocator}.

(** [random64()]: two 32-bit draws, the first one the high word. *)
Definition gen_random64 (g : gen_state) : Z * gen_state :=
  let (hi, g1) := gen_random g in
  let (lo, g2) := gen_random g1 in
  (Z.lor (Z.shiftl hi 32) lo, g2).

(** One entry of [random_(from, to)]: a raw draw reduced modulo the
    range and shifted by the base; 64-bit draws only for the wide
    ranges. *)
Definition uniform_int_from_to (range base : Z) (g : gen_state)
  : Z * gen_state :=
  let (v, g') :=
    if gen_wide_range <=? range then gen_random64 g else gen_random g in
  (wrap64 (v mod range + base), g').

(** The entries are filled one after the other. *)
Fixpoint random_from_to (range base : Z) (n : nat) (g : gen_state)
  : tensor * gen_state :=
  match n with
  | O => ([], g)
  | S n' =>
      let (x, g1) := uniform_int_from_to range base g in
      let (xs, g2) := random_from_to range base n' g1 in
      (x :: xs, g2)
  end.

(** [torch.randint(low, high, (size,))]: the arguments are unpacked as
    64-bit integers, the result tensor is allocated (a negative
    dimension is refused, and so is a storage the allocator does not
    provide), then filled from [low, high), which must be a non-empty
    range. *)
Definition randint (low high size : Z) : M gen_state tensor :=
  fun g =>
    if negb (is_int64 low && is_int64 high && is_int64 size) then
      (Raise OverflowError, g)
    else if size <? 0 then (Raise (NegativeDimension size), g)
    else if negb (grants size) then (Raise (AllocationError size), g)
    else if high <=? low then (Raise (RandomRangeError low high), g)
    else
      let (t, g') := random_from_to (high - low) low (Z.to_nat size) g in
      (Ok t, g').

(** [torch.manual_seed(seed)]: a seed from -2^63 to 2^64-1 is
    accepted, a negative one reinterpreted as unsigned; the default
    generator is replaced by a freshly seeded one. *)
Definition manual_seed (seed : Z) : M gen_state unit :=
  fun g =>
    if (- 2 ^ 63 <=? seed) && (seed <? 2 ^ 64) then
      (Ok tt, gen_seed (seed mod 2 ^ 64))
    else (Raise OverflowError, g).

(** [torch.cat(ts)] on one-dimensional int64 tensors: an empty list of
    tensors is refused, and the result is allocated. *)
Definition cat {S} (ts : list tensor) : M S tensor :=
  match ts with
  | [] => raise EmptyTensorList
  | _ =>
      if grants (len (concat ts)) then ret (concat ts)
      else raise (AllocationError (len (concat ts)))
  end.

End Primitives.

(** *** Device and distributed state read by the helpers *)

Record ProcessGroup : Type := {
  pg_world_size : Z;
  pg_rank : Z;
  pg_backend : string
}.

Record runtime : Type := {
  cuda_available : bool;
  cuda_devices : Z;
  distributed_available : bool;
  default_group : option ProcessGroup;  (* [None]: not initialized *)
  site_packages : gset string           (* the installed libraries *)
}.

(** [torch.cuda.is_available()] *)
Definition cuda_is_available : M runtime bool :=
  fun rt => (Ok (cuda_available rt), rt).

(** [torch.cuda.device_count()] *)
Definition cuda_device_count : M runtime Z :=
  fun rt => (Ok (cuda_devices rt), rt).

(** [torch.distributed.is_available()] *)
Definition distributed_is_available : M runtime bool :=
  fun rt => (Ok (distributed_available rt), rt).

(** [torch.distributed.is_initialized()] *)
Definition distributed_is_initialized : M runtime bool :=
  fun rt => (Ok (bool_decide (is_Some (default_group rt))), rt).

(** [torch.distributed.get_world_size()] and [get_rank()] on the default
    group: they raise when it has not been initialized. *)
Definition distributed_get_world_size : M runtime Z :=
  fun rt =>
    match default_group rt with
    | Some pg => (Ok (pg_world_size pg), rt)
    | None => (Raise ProcessGroupNotInitialized, rt)
    end.

Definition distributed_get_rank : M runtime Z :=
  fun rt =>
    match default_group rt with
    | Some pg => (Ok (pg_rank pg), rt)
    | None => (Raise ProcessGroupNotInitialized, rt)
    end.

End Torch.

(** ** The generator behind the framework's default CPU random state

    A Mersenne Twister with 624 words of state, seeded from the low 32 bits
    of the seed.  The properties of the helpers do not depend on it: they
    are proved for every [Torch.Generator]; it is the instance at which
    the helpers are evaluated on concrete configurations. *)

Module MT19937.

Definition STATE_N : nat := 624.
Definition STATE_M : nat := 397.
Definition MATRIX_A : Z := 0x9908b0df.
Definition UMASK : Z := 0x80000000.
Definition LMASK : Z := 0x7fffffff.

Definition u32 (z : Z) : Z := Z.land z 0xffffffff.

Record mt19937 : Type := {
  state_ : list Z;   (* STATE_N words *)
  left_ : Z;
  next_ : nat
}.

(** state[j] = 1812433253 * (state[j-1] ^ (state[j-1] >> 30)) + j *)
Fixpoint init_words (prev : Z) (j : Z) (n : nat) : list Z :=
  match n with
  | O => []
  | S n' =>
      let w := u32 (1812433253 * Z.lxor prev (Z.shiftr prev 30) + j) in
      w :: init_words w (j + 1) n'
  end.

Definition init_with_uint32 (seed : Z) : mt19937 :=
  let s0 := u32 seed in
  {| state_ := s0 :: init_words s0 1 (STATE_N - 1);
     left_ := 1;
     next_ := 0 |}.

Definition mix_bits (u v : Z) : Z := Z.lor (Z.land u UMASK) (Z.land v LMASK).

Definition twist (u v : Z) : Z :=
  Z.lxor (Z.shiftr (mix_bits u v) 1) (if Z.odd v then MATRIX_A else 0).

(** The state is regenerated in place, front to back: word [i] is
    combined with the word [STATE_M] places ahead when that one is still
    in the array, and else with the already regenerated word that far
    behind the wrap; the last word is twisted with the new first word.
    [rest] holds the words not yet regenerated, [done] the new ones. *)
Fixpoint regenerate (rest done : list Z) : list Z :=
  match rest with
  | [] => done
  | u :: rest' =>
      let v := match rest' with
               | v :: _ => v
               | [] => default 0 (done !! 0%nat)
               end in
      let m := match rest !! STATE_M with
               | Some m => m
               | None =>
                   default 0 (done !! (length done + STATE_M - STATE_N)%nat)
               end in
      regenerate rest' (done ++ [Z.lxor m (twist u v)])
  end.

Definition next_state (g : mt19937) : mt19937 :=
  {| state_ := regenerate (state_ g) [];
     left_ := Z.of_nat STATE_N;
     next_ := 0 |}.

Definition temper (y : Z) : Z :=
  let y := Z.lxor y (Z.shiftr y 11) in
  let y := Z.lxor y (Z.land (u32 (Z.shiftl y 7)) 0x9d2c5680) in
  let y := Z.lxor y (Z.land (u32 (Z.shiftl y 15)) 0xefc60000) in
  Z.lxor y (Z.shiftr y 18).

(** One 32-bit draw. *)
Definition random (g : mt19937) : Z * mt19937 :=
  let g := if left_ g - 1 =? 0 then next_state g
           else {| state_ := state_ g; left_ := left_ g - 1;
                   next_ := next_ g |} in
  let y := default 0 (state_ g !! next_ g) in
  (temper y,
   {| state_ := state_ g; left_ := left_ g; next_ := S (next_ g) |}).

#[export] Instance generator : Torch.Generator := {|
  Torch.gen_state := mt19937;
  Torch.gen_seed := init_with_uint32;
  Torch.gen_random := random;
  Torch.gen_wide_range := 2 ^ 28
|}.

End MT19937.

(** ** Cookbook/utils/data_generators.py *)

Module DataGenerators.
Import Py Torch.

(** Configuration for synthetic data generation. *)
Record DataConfig : Type := {
  num_users : Z;
  num_products : Z;
  max_sequence_length : Z;
  min_sequence_length : Z;
  batch_size : Z;
  seed : option Z
}.

(** The defaults of the dataclass. *)
Definition default_config : DataConfig :=
  {| num_users := 1000; num_products := 10000; max_sequence_length := 20;
     min_sequence_length := 1; batch_size := 32; seed := None |}.

(** The mapping returned by [generate_batch]. *)
Record Batch : Type := {
  batch_values : tensor;     (* "values" *)
  batch_lengths : tensor     (* "lengths" *)
}.

(** The mapping returned by [generate_kjt_inputs]. *)
Record KjtInputs : Type := {
  kjt_keys : list string;    (* "keys" *)
  kjt_values : tensor;       (* "values" *)
  kjt_lengths : tensor       (* "lengths" *)
}.

Record TorchRecDataGenerator : Type := { config : DataConfig }.

Section Generator.
Context {G : Generator} {A : Allocator}.

Definition __init__ (config : DataConfig)
  : M gen_state TorchRecDataGenerator :=
  match seed config with
  | Some s =>
      let* _ := manual_seed s in
      ret {| config := config |}
  | None => ret {| config := config |}
  end.

Definition generate_sequence_lengths (self : TorchRecDataGenerator)
    (batch_size : Z) : M gen_state tensor :=
  randint (min_sequence_length (config self))
          (max_sequence_length (config self))
          batch_size.

Definition generate_batch (self : TorchRecDataGenerator)
  : M gen_state Batch :=
  let* lengths :=
    generate_sequence_lengths self (batch_size (config self)) in
  let total_values := sum lengths in
  let* values := randint 0 (num_products (config self)) total_values in
  ret {| batch_values := values; batch_lengths := lengths |}.

Definition generate_kjt_inputs (self : TorchRecDataGenerator)
    (feature_names : list string) : M gen_state KjtInputs :=
  let* batches := list_comp (fun _ => generate_batch self) feature_names in
  let* values := cat (map batch_values batches) in
  let* lengths := cat (map batch_lengths batches) in
  ret {| kjt_keys := feature_names;
         kjt_values := values;
         kjt_lengths := lengths |}.

(** A generator is constructed from [cfg] and [generate_batch] is
    called [n] times on it; the outputs are collected in call order. *)
Definition batches_after_construction (cfg : DataConfig) (n : nat)
  : M gen_state (list Batch) :=
  let* self := __init__ cfg in
  list_comp (fun _ : nat => generate_batch self) (seq 0 n).

End Generator.

End DataGenerators.

(** ** Cookbook/utils/debugging.py *)

Module Debugging.
Import Py Torch.

(** What [validate_kjt] reads of its argument: [kjt.keys()],
    [kjt.lengths()], [kjt.values()] and the [is_cuda] flag of the
    values. *)
Record KeyedJaggedTensor : Type := {
  keys : list string;
  lengths : tensor;
  values : tensor;
  values_is_cuda : bool
}.

Record KjtValidation : Type := {
  valid_keys : bool;
  lengths_match : bool;
  on_device : bool
}.

Record ShardingStatus : Type := {
  world_size : Z;
  local_rank : Z;
  device_count : Z
}.

Definition validate_kjt (kjt : KeyedJaggedTensor)
  : M runtime KjtValidation :=
  let valid_keys := 0 <? Z.of_nat (length (keys kjt)) in
  let lengths_match := sum (lengths kjt) =? len (values kjt) in
  let* available := cuda_is_available in
  let on_device := if available then values_is_cuda kjt else true in
  ret {| valid_keys := valid_keys;
         lengths_match := lengths_match;
         on_device := on_device |}.

Definition check_sharding {Model : Type} (model : Model)
  : M runtime ShardingStatus :=
  let* initialized := distributed_is_initialized in
  let* world_size :=
    (if initialized then distributed_get_world_size else ret 1) in
  let* initialized := distributed_is_initialized in
  let* local_rank :=
    (if initialized then distributed_get_rank else ret 0) in
  let* device_count := cuda_device_count in
  ret {| world_size := world_size;
         local_rank := local_rank;
         device_count := device_count |}.

End Debugging.

(** ** Cookbook/utils/environment.py *)

Module Environment.
Import Py Torch.

Record EnvironmentStatus : Type := {
  env_cuda_available : bool;         (* "cuda_available" *)
  gpu_count : Z;
  env_distributed_available : bool;  (* "distributed_available" *)
  fbgemm_available : bool
}.

(** The statements of the module, in source order. *)
Definition module_body : M namespace unit :=
  let* _ := import_name "torch" in
  let* _ := import_name "os" in
  let* _ := import_from "typing" ["Dict"; "Any"]%string in
  class_def [] "TorchRecEnvironment" (fun globals =>
    let* _ := function_def globals ["staticmethod"]%string
                "check_environment" [["Dict"; "str"; "bool"]]%string in
    function_def globals ["staticmethod"]%string
      "check_distributed_setup" [["Dict"; "str"; "Any"]]%string).

(** [check_environment], run with the [globals()] of its module. *)
Definition check_environment (globals : namespace)
  : M runtime EnvironmentStatus :=
  let* cuda_available := cuda_is_available in
  let* available := cuda_is_available in
  let* gpu_count := (if available then cuda_device_count else ret 0) in
  let* distributed_available := distributed_is_available in
  let fbgemm_available :=
    if decide (("fbgemm" : string) ∈ globals) then true else false in
  ret {| env_cuda_available := cuda_available;
         gpu_count := gpu_count;
         env_distributed_available := distributed_available;
         fbgemm_available := fbgemm_available |}.

(** The module is imported and [check_environment] is called. *)
Definition import_and_check_environment : M runtime EnvironmentStatus :=
  match load_module module_body with
  | Ok globals => check_environment globals
  | Raise e => raise e
  end.

End Environment.

(** ** Cookbook/utils/benchmark.py *)

Module Benchmark.
Import Py.

(** Python floats, kept abstract: the operations the benchmark uses.
    Converting an int can overflow and dividing by zero raises. *)
Class PyFloat : Type := {
  float : Type;
  float_1e9 : float;                           (* the literal [1e9] *)
  float_of_int : Z -> option float;            (* [None]: int too large *)
  float_sub : float -> float -> float;
  float_mul : float -> float -> float;
  float_div : float -> float -> option float   (* [None]: divisor zero *)
}.

(** The process the benchmark runs in: the device runtime and the clock.
    Synchronizing raises on a machine without an initialized
    accelerator. *)
Class Process {F : PyFloat} : Type := {
  proc : Type;
  synchronize : proc -> res unit * proc;       (* torch.cuda.synchronize() *)
  perf_counter : proc -> float * proc;         (* time.perf_counter() *)
  max_memory_allocated : proc -> Z             (* torch.cuda.max_memory_allocated() *)
}.

(** What the benchmark does to the process, in order. *)
Inductive event : Type :=
| Forward            (* model(sample_input) *)
| Synchronize
| PerfCounter
| MaxMemoryAllocated.

#[export] Instance event_eq_dec : EqDecision event.
Proof. solve_decision. Defined.

(** The statements of the module, in source order: the imports and the
    result dataclass, then the class of the benchmark. *)
Definition module_prelude : M namespace unit :=
  let* _ := import_name "time" in
  let* _ := import_from "dataclasses" ["dataclass"]%string in
  let* _ := import_from "typing" ["List"; "Dict"; "Callable"]%string in
  class_def ["dataclass"]%string "BenchmarkResult" (fun globals =>
    let* _ := ann_assign globals "batch_time_ms" ["float"]%string in
    let* _ := ann_assign globals "memory_used_gb" ["float"]%string in
    ann_assign globals "throughput" ["float"]%string).

Definition module_body : M namespace unit :=
  let* _ := module_prelude in
  class_def [] "TorchRecBenchmark" (fun globals =>
    let* _ := function_def globals [] "__init__"
                [["int"]; ["int"]]%string in
    function_def globals [] "benchmark_forward"
      [["torch"]; ["Any"]; ["int"]; ["BenchmarkResult"]]%string).

Section Benchmark.
Context {F : PyFloat} {P : Process}.

(** Container for benchmark results. *)
Record BenchmarkResult : Type := {
  batch_time_ms : float;
  memory_used_gb : float;
  throughput : float
}.

Record TorchRecBenchmark : Type := {
  warmup_steps : Z;
  measure_steps : Z
}.

Definition __init__ (warmup_steps measure_steps : Z) : TorchRecBenchmark :=
  {| warmup_steps := warmup_steps; measure_steps := measure_steps |}.

Record world : Type := {
  trace : list event;
  process : proc
}.

Definition emit (e : event) (w : world) : world :=
  {| trace := trace w ++ [e]; process := process w |}.

(** A global name read inside the function body: the module's
    namespace, then the built-ins. *)
Definition load_global (globals : namespace) (name : string)
  : M world unit :=
  fun w =>
    if decide (name ∈ globals ++ builtins) then (Ok tt, w)
    else (Raise (NameError name), w).

(** [model(sample_input)]: the callable may change the process and
    may raise. *)
Definition call {X Y} (model : X -> M proc Y) (x : X) : M world Y :=
  fun w =>
    let (r, p) := model x (process (emit Forward w)) in
    (r, {| trace := trace (emit Forward w); process := p |}).

Definition cuda_synchronize : M world unit :=
  fun w =>
    let w := emit Synchronize w in
    let (r, p) := synchronize (process w) in
    (r, {| trace := trace w; process := p |}).

Definition time_perf_counter : M world float :=
  fun w =>
    let w := emit PerfCounter w in
    let (t, p) := perf_counter (process w) in
    (Ok t, {| trace := trace w; process := p |}).

Definition cuda_max_memory_allocated : M world Z :=
  fun w =>
    let w := emit MaxMemoryAllocated w in
    (Ok (max_memory_allocated (process w)), w).

Definition to_float {S} (z : Z) : M S float :=
  match float_of_int z with
  | Some x => ret x
  | None => raise OverflowError
  end.

Definition true_div {S} (x y : float) : M S float :=
  match float_div x y with
  | Some q => ret q
  | None => raise ZeroDivisionError
  end.

(** Benchmark forward pass. *)
Definition benchmark_forward (globals : namespace)
    (self : TorchRecBenchmark) {X Y} (model : X -> M proc Y)
    (sample_input : X) (batch_size : Z) : M world BenchmarkResult :=
  (* Warmup *)
  let* _ := load_global globals "range" in
  let* _ := for_range (Z.to_nat (warmup_steps self))
              (let* _ := call model sample_input in ret tt) in
  (* Measure *)
  let* _ := load_global globals "torch" in
  let* _ := cuda_synchronize in
  let* _ := load_global globals "time" in
  let* start_time := time_perf_counter in
  let* _ := load_global globals "range" in
  let* _ := for_range (Z.to_nat (measure_steps self))
              (let* _ := call model sample_input in ret tt) in
  let* _ := load_global globals "torch" in
  let* _ := cuda_synchronize in
  let* _ := load_global globals "time" in
  let* end_time := time_perf_counter in
  let* thousand := to_float 1000 in
  let* steps := to_float (measure_steps self) in
  let* avg_time :=
    true_div (float_mul (float_sub end_time start_time) thousand) steps in
  let* _ := load_global globals "torch" in
  let* allocated := cuda_max_memory_allocated in
  let* allocated := to_float allocated in
  let* memory_used := true_div allocated float_1e9 in
  let* items := to_float (batch_size * 1000) in
  let* throughput := true_div items avg_time in
  let* _ := load_global globals "BenchmarkResult" in
  ret {| batch_time_ms := avg_time;
         memory_used_gb := memory_used;
         throughput := throughput |}.

(** The module is imported, a [TorchRecBenchmark] is constructed and
    [benchmark_forward] is called on it. *)
Definition import_and_benchmark_forward (warmup measure : Z) {X Y}
    (model : X -> M proc Y) (sample_input : X) (batch_size : Z)
  : M world BenchmarkResult :=
  match load_module module_body with
  | Ok globals =>
      benchmark_forward globals (__init__ warmup measure)
        model sample_input batch_size
  | Raise e => raise e
  end.

End Benchmark.

End Benchmark.

(** ** Concrete configurations *)

Module Examples.
Import Py Torch DataGenerators.

(** [DataConfig(num_users=10, num_products=5, min_sequence_length=1,
    max_sequence_length=3, batch_size=4, seed=42)] *)
Definition small_config : DataConfig :=
  {| num_users := 10; num_products := 5; max_sequence_length := 3;
     min_sequence_length := 1; batch_size := 4; seed := Some 42 |}.

(** The same with [min_sequence_length == max_sequence_length]. *)
Definition flat_config : DataConfig :=
  {| num_users := 10; num_products := 5; max_sequence_length := 3;
     min_sequence_length := 3; batch_size := 4; seed := Some 42 |}.

(** An allocator that provides up to 2^30 entries (eight gigabytes). *)
#[export] Instance eight_gigabytes : Allocator :=
  {| can_allocate := fun entries => entries <=? 2 ^ 30 |}.

(** The default generator of a fresh process (default seed). *)
Definition fresh : @gen_state MT19937.generator :=
  MT19937.init_with_uint32 5489.

Definition small_generator : TorchRecDataGenerator :=
  {| config := small_config |}.

(** A machine without accelerator and without a process group. *)
Definition single_process : runtime :=
  {| cuda_available := false; cuda_devices := 0;
     distributed_available := true; default_group := None;
     site_packages := ∅ |}.

(** The same machine with the acceleration library installed. *)
Definition with_fbgemm : runtime :=
  {| cuda_available := false; cuda_devices := 0;
     distributed_available := true; default_group := None;
     site_packages := {["fbgemm"%string]} |}.

(** A jagged structure with two values for three announced entries. *)
Definition short_kjt : Debugging.KeyedJaggedTensor :=
  {| Debugging.keys := ["user"]%string; Debugging.lengths := [2; 1];
     Debugging.values := [7; 8]; Debugging.values_is_cuda := false |}.

(** A process to run the benchmark in: exact rational arithmetic for the
    floats, a clock counted in milliseconds, a model whose forward pass
    takes five of them. *)
Definition exact_float : Benchmark.PyFloat :=
  {| Benchmark.float := QArith_base.Q;
     Benchmark.float_1e9 := QArith_base.inject_Z (10 ^ 9);
     Benchmark.float_of_int := fun z => Some (QArith_base.inject_Z z);
     Benchmark.float_sub :=
       fun x y => Qreduction.Qred (QArith_base.Qminus x y);
     Benchmark.float_mul :=
       fun x y => Qreduction.Qred (QArith_base.Qmult x y);
     Benchmark.float_div :=
       fun x y =>
         if QArith_base.Qeq_bool y (QArith_base.inject_Z 0) then None
         else Some (Qreduction.Qred (QArith_base.Qdiv x y)) |}.

Definition millisecond_clock : @Benchmark.Process exact_float :=
  {| Benchmark.proc := Z;
     Benchmark.synchronize := fun p => (Ok tt, p);
     Benchmark.perf_counter :=
       fun p : Z =>
         (QArith_base.Qmake p 1000 : @Benchmark.float exact_float, p);
     Benchmark.max_memory_allocated := fun _ => 2 * 10 ^ 9 |}.

(** The same clock on a machine without accelerator. *)
Definition cpu_only_clock : @Benchmark.Process exact_float :=
  {| Benchmark.proc := Z;
     Benchmark.synchronize := fun p => (Raise CudaUnavailable, p);
     Benchmark.perf_counter :=
       fun p : Z =>
         (QArith_base.Qmake p 1000 : @Benchmark.float exact_float, p);
     Benchmark.max_memory_allocated := fun _ => 0 |}.

Definition five_ms_model (x : unit) : M Z unit :=
  fun p => (Ok tt, p + 5).

Definition idle : @Benchmark.world exact_float millisecond_clock :=
  @Benchmark.Build_world exact_float millisecond_clock [] 0.

(** The names bound by the import statements of benchmark.py. *)
Definition benchmark_imports : namespace :=
  ["time"; "dataclass"; "List"; "Dict"; "Callable"]%string.

End Examples.

(** ** The remaining module bodies

    The statements of data_generators.py, debugging.py and
    visualization.py, in source order, for the names they bind and read
    when they are loaded. *)

Module Loading.
Import Py.

(** [name: annotation = value] in a class body: the annotation is
    evaluated and the name is bound. *)
Definition ann_assign_value (outer : namespace) (name : string)
    (annotation : list string) : M namespace unit :=
  let* _ := load_names outer annotation in
  store_name name.

(** [import package.module as name] *)
Definition import_as (module name : string) : M namespace unit :=
  store_name name.

Definition data_generators_body : M namespace unit :=
  let* _ := import_name "torch" in
  let* _ := import_from "typing" ["Dict"; "List"; "Tuple"; "Optional"]%string in
  let* _ := import_from "dataclasses" ["dataclass"]%string in
  let* _ := class_def ["dataclass"]%string "DataConfig" (fun globals =>
    let* _ := ann_assign_value globals "num_users" ["int"]%string in
    let* _ := ann_assign_value globals "num_products" ["int"]%string in
    let* _ := ann_assign_value globals "max_sequence_length" ["int"]%string in
    let* _ := ann_assign_value globals "min_sequence_length" ["int"]%string in
    let* _ := ann_assign_value globals "batch_size" ["int"]%string in
    ann_assign_value globals "seed" ["Optional"; "int"]%string) in
  class_def [] "TorchRecDataGenerator" (fun globals =>
    let* _ := function_def globals [] "__init__" [["DataConfig"]]%string in
    let* _ := function_def globals [] "generate_sequence_lengths"
                [["int"]; ["torch"]]%string in
    let* _ := function_def globals [] "generate_batch"
                [["Dict"; "str"; "torch"]]%string in
    function_def globals [] "generate_kjt_inputs"
      [["List"; "str"]; ["Dict"; "str"; "torch"]]%string).

Definition debugging_body : M namespace unit :=
  let* _ := import_name "torch" in
  let* _ := import_name "gc" in
  let* _ := import_from "typing" ["Dict"; "Any"]%string in
  class_def [] "TorchRecDebugger" (fun globals =>
    let* _ := function_def globals ["staticmethod"]%string "memory_status"
                [["Dict"; "str"; "Any"]]%string in
    let* _ := function_def globals ["staticmethod"]%string "clear_memory"
                [] in
    let* _ := function_def globals ["staticmethod"]%string "validate_kjt"
                [["Dict"; "str"; "bool"]]%string in
    function_def globals ["staticmethod"]%string "check_sharding"
      [["Dict"; "str"; "Any"]]%string).

Definition visualization_body : M namespace unit :=
  let* _ := import_as "matplotlib.pyplot" "plt" in
  let* _ := import_as "numpy" "np" in
  let* _ := import_from "typing" ["List"; "Dict"]%string in
  class_def [] "TorchRecVisualizer" (fun globals =>
    let* _ := function_def globals ["staticmethod"]%string
                "plot_memory_usage"
                [["List"; "Dict"; "str"; "float"]]%string in
    function_def globals ["staticmethod"]%string
      "plot_embedding_distribution" [["torch"]]%string).

(** The global names the function bodies of each module read. *)
Definition data_generators_reads : list string := ["torch"]%string.
Definition debugging_reads : list string := ["torch"; "gc"; "len"]%string.
Definition environment_reads : list string :=
  ["torch"; "os"; "globals"; "all"]%string.

End Loading.

(** ** environment.py: the distributed set-up *)

Module DistributedSetup.
Import Py Torch.

(** The process state [check_distributed_setup] reads: the framework
    state and [os.environ]. *)
Record process_env : Type := {
  env_runtime : runtime;
  environ : gmap string string
}.

Record DistributedStatus : Type := {
  env_vars_set : bool;
  process_group_initialized : bool;
  backend : option string      (* [None] is Python's [None] *)
}.

(** A framework query, run on the framework part of the state. *)
Definition torch_query {A} (c : M runtime A) : M process_env A :=
  fun s =>
    let (r, rt) := c (env_runtime s) in
    (r, {| env_runtime := rt; environ := environ s |}).

(** [var in os.environ] *)
Definition in_environ (var : string) : M process_env bool :=
  fun s => (Ok (bool_decide (is_Some (environ s !! var))), s).

(** [all(var in os.environ for var in vars)]: the generator is consumed
    up to the first variable that is not set. *)
Fixpoint all_in_environ (vars : list string) : M process_env bool :=
  match vars with
  | [] => ret true
  | var :: vars' =>
      let* present := in_environ var in
      if present then all_in_environ vars' else ret false
  end.

(** [torch.distributed.get_backend()] on the default group. *)
Definition distributed_get_backend : M runtime string :=
  fun rt =>
    match default_group rt with
    | Some pg => (Ok (pg_backend pg), rt)
    | None => (Raise ProcessGroupNotInitialized, rt)
    end.

Definition required_vars : list string :=
  ["MASTER_ADDR"; "MASTER_PORT"; "WORLD_SIZE"; "RANK"]%string.

Definition check_distributed_setup : M process_env DistributedStatus :=
  let* env_vars_set := all_in_environ required_vars in
  let* process_group_initialized := torch_query distributed_is_initialized in
  let* initialized := torch_query distributed_is_initialized in
  let* backend :=
    (if initialized then
       let* b := torch_query distributed_get_backend in ret (Some b)
     else ret None) in
  ret {| env_vars_set := env_vars_set;
         process_group_initialized := process_group_initialized;
         backend := backend |}.

End DistributedSetup.

(** ** debugging.py: the memory snapshot *)

Module MemoryStatus.
Import Py.

(** The counters of the device allocator. *)
Record cuda_memory : Type := {
  memory_allocated : Z;
  memory_reserved : Z;
  max_memory_allocated : Z
}.

(** Get current GPU memory status: a dictionary of the three counters. *)
Definition memory_status : M cuda_memory (gmap string Z) :=
  fun m =>
    (Ok (<["allocated" := memory_allocated m]>
         (<["reserved" := memory_reserved m]>
          (<["max_allocated" := max_memory_allocated m]> ∅))),
     m).

End MemoryStatus.

(** ** Cookbook/utils/visualization.py *)

Module Visualization.
Import Py Benchmark.

(** The calls made on the plotting library. *)
Inductive plot_call {F : PyFloat} : Type :=
| Figure (width height : Z)
| Plot (xs : list Z) (ys : list float) (label : string)
| Xlabel (text : string)
| Ylabel (text : string)
| Title (text : string)
| Legend
| Grid (visible : bool).

(** What [plot_memory_usage] can raise: a missing key of a snapshot, or
    an error of the float arithmetic. *)
Inductive plot_error : Type :=
| KeyError (key : string)
| ArithmeticError (e : exn).

Section Visualizer.
Context {F : PyFloat}.

(** A number stored in a snapshot: an int (as [memory_status] reports
    them) or a float. *)
Inductive number : Type :=
| Int (z : Z)
| Float (x : float).

(** [value / 1e9] *)
Definition in_gigabytes (value : number) : plot_error + float :=
  match value with
  | Int z =>
      match float_of_int z with
      | Some x =>
          match float_div x float_1e9 with
          | Some q => inr q
          | None => inl (ArithmeticError ZeroDivisionError)
          end
      | None => inl (ArithmeticError OverflowError)
      end
  | Float x =>
      match float_div x float_1e9 with
      | Some q => inr q
      | None => inl (ArithmeticError ZeroDivisionError)
      end
  end.

(** [[s[key] / 1e9 for s in memory_stats]]: the snapshots are read front
    to back and the first failure ends the comprehension. *)
Fixpoint series (key : string) (memory_stats : list (gmap string number))
  : plot_error + list float :=
  match memory_stats with
  | [] => inr []
  | s :: rest =>
      match s !! key with
      | None => inl (KeyError key)
      | Some value =>
          match in_gigabytes value with
          | inl e => inl e
          | inr y =>
              match series key rest with
              | inl e => inl e
              | inr ys => inr (y :: ys)
              end
          end
      end
  end.

(** [list(range(n))] *)
Definition range_list (n : nat) : list Z := map Z.of_nat (seq 0 n).

(** Plot memory usage over time; [figure] holds the calls made on the
    plotting library so far. *)
Definition plot_memory_usage (memory_stats : list (gmap string number))
    (figure : list plot_call) : (plot_error + unit) * list plot_call :=
  let timestamps := range_list (length memory_stats) in
  match series "allocated" memory_stats with
  | inl e => (inl e, figure)
  | inr allocated =>
      match series "reserved" memory_stats with
      | inl e => (inl e, figure)
      | inr reserved =>
          (inr tt,
           figure ++
           [Figure 10 5;
            Plot timestamps allocated "Allocated";
            Plot timestamps reserved "Reserved";
            Xlabel "Time";
            Ylabel "Memory (GB)";
            Title "GPU Memory Usage";
            Legend;
            Grid true])
      end
  end.

(** A snapshot of [memory_status], as the dictionary handed to
    [plot_memory_usage]. *)
Definition snapshot (status : gmap string Z) : gmap string number :=
  Int <$> status.

End Visualizer.

End Visualization.

(** ** From a generated bundle to a jagged tensor *)

Module Composition.
Import Torch DataGenerators.

(** The jagged tensor built from the mapping of [generate_kjt_inputs]:
    [KeyedJaggedTensor(keys=..., values=..., lengths=...)], its values on
    the device or not. *)
Definition as_kjt (inputs : KjtInputs) (on_cuda : bool)
  : Debugging.KeyedJaggedTensor :=
  {| Debugging.keys := kjt_keys inputs;
     Debugging.lengths := kjt_lengths inputs;
     Debugging.values := kjt_values inputs;
     Debugging.values_is_cuda := on_cuda |}.

End Composition.

(** ** More concrete configurations *)

Module MoreExamples.
Import Py Torch DataGenerators.

(** The small configuration with an empty catalogue. *)
Definition no_products_config : DataConfig :=
  {| num_users := 10; num_products := 0; max_sequence_length := 3;
     min_sequence_length := 1; batch_size := 4; seed := Some 42 |}.

(** The small configuration with batches of no row. *)
Definition no_rows_config : DataConfig :=
  {| num_users := 10; num_products := 5; max_sequence_length := 3;
     min_sequence_length := 1; batch_size := 0; seed := Some 42 |}.

End MoreExamples.

Module RuntimeExamples.
Import Torch DistributedSetup.

(** Two processes of a job launched over NCCL, this one of rank 1. *)
Definition nccl_pair : runtime :=
  {| cuda_available := true; cuda_devices := 2;
     distributed_available := true;
     default_group :=
       Some {| pg_world_size := 2; pg_rank := 1; pg_backend := "nccl" |};
     site_packages := ∅ |}.

(** The environment a launcher sets up. *)
Definition launched : gmap string string :=
  <["MASTER_ADDR" := "127.0.0.1"]>
  (<["MASTER_PORT" := "29500"]>
   (<["WORLD_SIZE" := "2"]>
    (<["RANK" := "1"]> (<["HOME" := "/root"]> ∅))))%string.

Definition launched_pair : process_env :=
  {| env_runtime := nccl_pair; environ := launched |}.

(** The same environment with [RANK] unset, in a process without a
    group. *)
Definition half_launched : process_env :=
  {| env_runtime := Examples.single_process;
     environ := delete "RANK"%string launched |}.

End RuntimeExamples.

(** ** Memory snapshots handed to the plot *)

Module Monitoring.
Import Py MemoryStatus Visualization.

(** The dictionary [memory_status()] returns in an allocator state. *)
Definition status_in (m : cuda_memory) : gmap string Z :=
  match fst (memory_status m) with
  | Ok status => status
  | Raise _ => ∅
  end.

(** The list of snapshots collected by calling [memory_status()] in the
    successive allocator states [ms]. *)
Definition collect {F : Benchmark.PyFloat} (ms : list cuda_memory)
  : list (gmap string number) :=
  map (fun m => snapshot (status_in m)) ms.

(** Three allocator states of a run. *)
Definition three_states : list cuda_memory :=
  [ {| memory_allocated := 0; memory_reserved := 0;
       max_memory_allocated := 0 |};
    {| memory_allocated := 3 * 10 ^ 9; memory_reserved := 4 * 10 ^ 9;
       max_memory_allocated := 3 * 10 ^ 9 |};
    {| memory_allocated := 10 ^ 9; memory_reserved := 4 * 10 ^ 9;
       max_memory_allocated := 3 * 10 ^ 9 |} ].

(** A snapshot without its "reserved" entry. *)
Definition partial_snapshot : gmap string (@number Examples.exact_float) :=
  {[ "allocated"%string := Int 5 ]}.

End Monitoring.

(** * Properties *)

(** ** The monad *)

Module PyFacts.
Import Py.

Lemma bind_ok {S A B} (c : M S A) (k : A -> M S B) s b s' :
  bind c k s = (Ok b, s') ->
  exists a s1, c s = (Ok a, s1) /\ k a s1 = (Ok b, s').
Proof.
  unfold bind. destruct (c s) as [[a|e] s1]; intros H.
  - exists a, s1. split; [reflexivity | exact H].
  - discriminate H.
Qed.

Lemma bind_step {S A B} (c : M S A) (k : A -> M S B) s a s1 :
  c s = (Ok a, s1) -> bind c k s = k a s1.
Proof. unfold bind. intros ->. reflexivity. Qed.

Lemma bind_raise {S A B} (c : M S A) (k : A -> M S B) s e s1 :
  c s = (Raise e, s1) -> bind c k s = (Raise e, s1).
Proof. unfold bind. intros ->. reflexivity. Qed.

Lemma for_range_succ {S} (n : nat) (body : M S unit) s :
  for_range (Datatypes.S n) body s
  = match fst (body s) with
    | Ok _ => for_range n body (snd (body s))
    | Raise e => (Raise e, snd (body s))
    end.
Proof.
  simpl. unfold bind. destruct (body s) as [[u|e] s1]; reflexivity.
Qed.

(** A comprehension that returns has made one call per element. *)
Lemma list_comp_length {S A B} (f : A -> M S B) xs :
  forall s ys s', list_comp f xs s = (Ok ys, s') -> length ys = length xs.
Proof.
  induction xs as [|x xs IH]; simpl; intros s ys s' H.
  - inversion H. reflexivity.
  - apply bind_ok in H as (y & s1 & _ & H).
    apply bind_ok in H as (ys' & s2 & Hys & H).
    inversion H; subst. simpl. f_equal. eapply IH, Hys.
Qed.

End PyFacts.

(** ** The framework primitives *)

Module TorchFacts.
Import Py Torch PyFacts.

Lemma is_int64_spec z : is_int64 z = true <-> - 2 ^ 63 <= z <= 2 ^ 63 - 1.
Proof. unfold is_int64, int64_min, int64_max. lia. Qed.

Lemma wrap64_small z : - 2 ^ 63 <= z <= 2 ^ 63 - 1 -> wrap64 z = z.
Proof. intros H. unfold wrap64. rewrite Z.mod_small; lia. Qed.

(** The tensor sum is the exact sum whenever that fits in 64 bits. *)
Lemma sum_exact (t : tensor) :
  is_int64 (foldr Z.add 0 t) = true -> sum t = foldr Z.add 0 t.
Proof. intros H. apply wrap64_small, is_int64_spec, H. Qed.

Lemma len_app (t1 t2 : tensor) : len (t1 ++ t2) = len t1 + len t2.
Proof. unfold len. rewrite length_app. lia. Qed.

Section Primitives.
Context {G : Generator} {A : Allocator}.

Lemma uniform_int_from_to_bounds range base g :
  0 < range -> - 2 ^ 63 <= base -> base + range <= 2 ^ 63 ->
  base <= fst (uniform_int_from_to range base g) < base + range.
Proof.
  intros Hr Hlo Hhi. unfold uniform_int_from_to.
  destruct (if gen_wide_range <=? range then gen_random64 g
            else gen_random g) as [v g']. simpl.
  pose proof (Z.mod_pos_bound v range Hr).
  rewrite wrap64_small; lia.
Qed.

Lemma random_from_to_length range base n :
  forall g, length (fst (random_from_to range base n g)) = n.
Proof.
  induction n as [|n IH]; intros g; simpl; [reflexivity|].
  destruct (uniform_int_from_to range base g) as [x g1].
  specialize (IH g1). destruct (random_from_to range base n g1). simpl in *.
  congruence.
Qed.

Lemma random_from_to_bounds range base n :
  0 < range -> - 2 ^ 63 <= base -> base + range <= 2 ^ 63 ->
  forall g,
    Forall (fun x => base <= x < base + range)
           (fst (random_from_to range base n g)).
Proof.
  intros Hr Hlo Hhi. induction n as [|n IH]; intros g; simpl.
  - constructor.
  - pose proof (uniform_int_from_to_bounds range base g Hr Hlo Hhi) as Hx.
    destruct (uniform_int_from_to range base g) as [x g1].
    specialize (IH g1). destruct (random_from_to range base n g1).
    simpl in *. constructor; assumption.
Qed.

(** What [randint] returns when it returns. *)
Lemma randint_ok low high size g t g' :
  randint low high size g = (Ok t, g') ->
  len t = size /\ Forall (fun x => low <= x < high) t.
Proof.
  unfold randint.
  destruct (is_int64 low) eqn:Hl; [|discriminate].
  destruct (is_int64 high) eqn:Hh; [|discriminate].
  destruct (is_int64 size) eqn:Hs; [|discriminate]. simpl.
  destruct (size <? 0) eqn:Hneg; [discriminate|].
  destruct (grants size); [|discriminate]. simpl.
  destruct (high <=? low) eqn:Hrange; [discriminate|].
  apply is_int64_spec in Hl, Hh.
  pose proof (random_from_to_length (high - low) low (Z.to_nat size) g) as Hlen.
  pose proof (random_from_to_bounds (high - low) low (Z.to_nat size)
                ltac:(lia) ltac:(lia) ltac:(lia) g) as Hb.
  destruct (random_from_to (high - low) low (Z.to_nat size) g) as [t0 g0].
  simpl in *. intros H. inversion H; subst. split.
  - unfold len. lia.
  - eapply Forall_impl; [exact Hb|]. simpl. intros x Hx. lia.
Qed.

(** When [randint] returns. *)
Lemma randint_returns low high size g :
  is_int64 low = true -> is_int64 high = true ->
  0 <= size <= int64_max -> grants size = true -> low < high ->
  exists t g', randint low high size g = (Ok t, g').
Proof.
  intros Hl Hh Hs Hgrant Hlt. unfold randint. rewrite Hl, Hh, Hgrant.
  assert (is_int64 size = true) as ->
    by (apply is_int64_spec; unfold int64_max in Hs; lia).
  simpl.
  destruct (size <? 0) eqn:E1; [lia|].
  destruct (high <=? low) eqn:E2; [lia|].
  destruct (random_from_to (high - low) low (Z.to_nat size) g) as [t g'].
  eauto.
Qed.

(** An empty range is refused, and the generator is left as it was. *)
Lemma randint_empty_range low high size g :
  high <= low -> exists e, randint low high size g = (Raise e, g).
Proof.
  intros Hle. unfold randint.
  destruct (negb (is_int64 _ && _ && _)); [eauto|].
  destruct (size <? 0); [eauto|].
  destruct (negb (grants size)); [eauto|].
  destruct (high <=? low) eqn:E; [eauto|lia].
Qed.

(** What [cat] returns when it returns. *)
Lemma cat_ok {S} (ts : list tensor) (s s' : S) t :
  cat ts s = (Ok t, s') ->
  ts <> [] /\ t = concat ts /\ s' = s /\ grants (len (concat ts)) = true.
Proof.
  unfold cat. destruct ts as [|t0 ts]; [discriminate|].
  destruct (grants _); [|discriminate].
  intros E. inversion E. repeat split. discriminate.
Qed.

End Primitives.

End TorchFacts.

(** ** data_generators.py *)

Module DataGeneratorsFacts.
Import Py Torch DataGenerators Examples PyFacts TorchFacts.

(** The exact sum of entries that all lie in [lo, hi). *)
Lemma foldr_add_bounds (lo hi : Z) (t : tensor) :
  Forall (fun x => lo <= x < hi) t ->
  len t * lo <= foldr Z.add 0 t <= len t * hi.
Proof.
  unfold len. induction 1 as [|x t Hx _ IH]; simpl length; simpl foldr.
  - lia.
  - rewrite Nat2Z.inj_succ. nia.
Qed.

Section Generator.
Context {G : Generator} {A : Allocator}.

(** The steps of [generate_batch] when it returns. *)
Lemma generate_batch_ok self g b g' :
  generate_batch self g = (Ok b, g') ->
  exists g1,
    generate_sequence_lengths self (batch_size (config self)) g
      = (Ok (batch_lengths b), g1)
    /\ randint 0 (num_products (config self)) (sum (batch_lengths b)) g1
      = (Ok (batch_values b), g').
Proof.
  unfold generate_batch. intros H.
  apply bind_ok in H as (lens & g1 & Hlens & H).
  apply bind_ok in H as (vals & g2 & Hvals & H).
  inversion H; subst; clear H. simpl. eauto.
Qed.

(** The shape of a returned batch: [batch_size] lengths, each in
    [min_sequence_length, max_sequence_length), and values in
    [0, num_products). *)
Lemma generate_batch_shape self g b g' :
  generate_batch self g = (Ok b, g') ->
  len (batch_lengths b) = batch_size (config self)
  /\ Forall (fun x => min_sequence_length (config self) <= x
                      < max_sequence_length (config self))
            (batch_lengths b)
  /\ Forall (fun x => 0 <= x < num_products (config self)) (batch_values b).
Proof.
  intros E. apply generate_batch_ok in E as (g1 & Hlens & Hvals).
  apply randint_ok in Hlens as [Hlen Hall].
  apply randint_ok in Hvals as [_ Hvals].
  auto.
Qed.

(** When the bounds of the configuration keep [batch_size] lengths
    within 64 bits, the exact sum of the lengths of a returned batch is
    its number of values. *)
Lemma generate_batch_exact_sum self g b g' :
  - 2 ^ 63 <= batch_size (config self) * min_sequence_length (config self) ->
  batch_size (config self) * max_sequence_length (config self) <= 2 ^ 63 - 1 ->
  generate_batch self g = (Ok b, g') ->
  foldr Z.add 0 (batch_lengths b) = len (batch_values b).
Proof.
  intros Hlo Hhi E.
  pose proof (generate_batch_shape _ _ _ _ E) as (Hlen & Hall & _).
  apply generate_batch_ok in E as (g1 & _ & Hvals).
  apply randint_ok in Hvals as [Hvals _].
  pose proof (foldr_add_bounds _ _ _ Hall) as Hsum. rewrite Hlen in Hsum.
  rewrite Hvals. symmetry. apply sum_exact, is_int64_spec. lia.
Qed.

(** On a configuration with sensible bounds, [generate_batch] returns
    when the allocator grants tensors of up to
    [batch_size * max_sequence_length] entries. *)
Lemma generate_batch_returns self g :
  0 <= min_sequence_length (config self) ->
  min_sequence_length (config self) < max_sequence_length (config self) ->
  max_sequence_length (config self) <= int64_max ->
  0 <= batch_size (config self) ->
  batch_size (config self) * max_sequence_length (config self)
    <= int64_max ->
  0 < num_products (config self) <= int64_max ->
  (forall n,
      0 <= n <= batch_size (config self) * max_sequence_length (config self) ->
      grants n = true) ->
  exists b g', generate_batch self g = (Ok b, g').
Proof.
  intros Hmin Hlt Hmax Hbs Hfit Hprod Hgrant. unfold int64_max in *.
  destruct (randint_returns (min_sequence_length (config self))
              (max_sequence_length (config self))
              (batch_size (config self)) g) as (lens & g1 & Hlens);
    try (apply is_int64_spec); try (apply Hgrant);
    unfold int64_max; try nia.
  pose proof (randint_ok _ _ _ _ _ _ Hlens) as [Hlen Hall].
  pose proof (foldr_add_bounds _ _ _ Hall) as Hsum.
  rewrite Hlen in Hsum.
  assert (sum lens = foldr Z.add 0 lens) as Hexact
    by (apply sum_exact, is_int64_spec; nia).
  destruct (randint_returns 0 (num_products (config self)) (sum lens) g1)
    as (vals & g2 & Hvals);
    try (apply is_int64_spec); try (apply Hgrant);
    unfold int64_max; try nia.
  exists {| batch_values := vals; batch_lengths := lens |}, g2.
  unfold generate_batch, generate_sequence_lengths.
  rewrite (bind_step _ _ _ _ _ Hlens), (bind_step _ _ _ _ _ Hvals).
  reflexivity.
Qed.

(** It does on the default configuration, with an allocator that grants
    640 entries. *)
Lemma generate_batch_default_returns g :
  (forall n, 0 <= n <= 640 -> grants n = true) ->
  exists b g', generate_batch {| config := default_config |} g = (Ok b, g').
Proof.
  intros Hgrant.
  apply generate_batch_returns; unfold int64_max; simpl; try lia.
  exact Hgrant.
Qed.

(** The comprehension over the feature names returns when each
    [generate_batch] does. *)
Lemma batches_return self {Name} (names : list Name) :
  (forall g, exists b g', generate_batch self g = (Ok b, g')) ->
  forall g, exists bs g',
    list_comp (fun _ => generate_batch self) names g = (Ok bs, g').
Proof.
  intros Hb. induction names as [|n names IH]; intros g; simpl.
  - exists [], g. reflexivity.
  - destruct (Hb g) as (b & g1 & E1). destruct (IH g1) as (bs & g2 & E2).
    exists (b :: bs), g2.
    rewrite (bind_step _ _ _ _ _ E1), (bind_step _ _ _ _ _ E2).
    reflexivity.
Qed.

(** The total length of a concatenation. *)
Lemma len_concat (ts : list tensor) :
  len (concat ts) = foldr Z.add 0 (map len ts).
Proof.
  induction ts as [|t ts IH]; simpl; [reflexivity|].
  rewrite len_app, IH. reflexivity.
Qed.

(** With no feature name, no batch is drawn and the concatenation is
    refused. *)
Lemma generate_kjt_inputs_nil self g :
  generate_kjt_inputs self [] g = (Raise EmptyTensorList, g).
Proof. reflexivity. Qed.

(** Construction with an accepted seed forgets the earlier state. *)
Lemma init_seeded cfg s g :
  seed cfg = Some s -> - 2 ^ 63 <= s < 2 ^ 64 ->
  __init__ cfg g = (Ok {| config := cfg |}, gen_seed (s mod 2 ^ 64)).
Proof.
  intros Hs Hr. unfold __init__, manual_seed, bind, ret. rewrite Hs.
  destruct (- 2 ^ 63 <=? s) eqn:E1; [|lia].
  destruct (s <? 2 ^ 64) eqn:E2; [|lia]. reflexivity.
Qed.

(** Construction with a refused seed raises. *)
Lemma init_refused cfg s g :
  seed cfg = Some s -> ~ (- 2 ^ 63 <= s < 2 ^ 64) ->
  __init__ cfg g = (Raise OverflowError, g).
Proof.
  intros Hs Hr. unfold __init__, manual_seed, bind, ret. rewrite Hs.
  destruct (- 2 ^ 63 <=? s) eqn:E1; destruct (s <? 2 ^ 64) eqn:E2;
    simpl; try reflexivity. lia.
Qed.

End Generator.

End DataGeneratorsFacts.

Module DataGeneratorsSpec.
Import Py Torch DataGenerators Examples PyFacts TorchFacts
       DataGeneratorsFacts.

(** C1. For every batch returned by [generate_batch], the sum of the
    entries of its "lengths" tensor equals the number of entries of its
    "values" tensor.  The sum is the tensor sum the code takes (64-bit);
    it is the exact sum whenever that fits in 64 bits, and then the
    exact sum equals the number of values too. *)
Theorem generate_batch_lengths_sum {G : Generator} {A : Allocator}
    (self : TorchRecDataGenerator) (g g' : gen_state) (b : Batch) :
  generate_batch self g = (Ok b, g') ->
  sum (batch_lengths b) = len (batch_values b)
  /\ (is_int64 (foldr Z.add 0 (batch_lengths b)) = true ->
      foldr Z.add 0 (batch_lengths b) = len (batch_values b)).
Proof.
  intros H. apply generate_batch_ok in H as (g1 & _ & Hvals).
  apply randint_ok in Hvals as [Hlen _].
  split; [congruence|].
  intros Hfit. rewrite <- (sum_exact _ Hfit). congruence.
Qed.

Lemma generate_batch_lengths_sum_witness :
  exists b,
    fst (generate_batch (G:=MT19937.generator) small_generator
           (gen_seed 42)) = Ok b
    /\ sum (batch_lengths b) = len (batch_values b)
    /\ foldr Z.add 0 (batch_lengths b) = len (batch_values b).
Proof.
  destruct (generate_batch (G:=MT19937.generator) small_generator
              (gen_seed 42)) as [[b|e] g'] eqn:E.
  - exists b. split; [reflexivity|].
    destruct (generate_batch_lengths_sum small_generator _ _ _ E)
      as [Hsum Hexact].
    split; [exact Hsum|]. apply Hexact.
    vm_compute in E. inversion E. reflexivity.
  - exfalso. vm_compute in E. discriminate E.
Defined.

(** C2. The bundle returned by [generate_kjt_inputs] for a list of
    feature names is built from one batch per name, generated in the
    order of the names: its "values" has as many entries as the batches'
    "values" have together (and is their concatenation), its "lengths"
    is the concatenation of the batches' "lengths" in the same order,
    and its "keys" is the list of names as given. *)
Theorem generate_kjt_inputs_concatenates {G : Generator} {A : Allocator}
    (self : TorchRecDataGenerator) (feature_names : list string)
    (g g' : gen_state) (k : KjtInputs) :
  generate_kjt_inputs self feature_names g = (Ok k, g') ->
  exists batches : list Batch,
    list_comp (fun _ => generate_batch self) feature_names g
      = (Ok batches, g')
    /\ length batches = length feature_names
    /\ len (kjt_values k)
       = foldr Z.add 0 (map (fun b => len (batch_values b)) batches)
    /\ kjt_values k = concat (map batch_values batches)
    /\ kjt_lengths k = concat (map batch_lengths batches)
    /\ kjt_keys k = feature_names.
Proof.
  unfold generate_kjt_inputs. intros H.
  apply bind_ok in H as (batches & g1 & Hb & H).
  apply bind_ok in H as (values & g2 & Hvalues & H).
  apply bind_ok in H as (lengths & g3 & Hlengths & H).
  apply cat_ok in Hvalues as (_ & -> & -> & _).
  apply cat_ok in Hlengths as (_ & -> & -> & _).
  inversion H; subst; clear H. cbn [kjt_values kjt_lengths kjt_keys].
  exists batches.
  pose proof (list_comp_length _ _ _ _ _ Hb) as Hlen.
  repeat split; try reflexivity; try assumption.
  rewrite len_concat, map_map. reflexivity.
Qed.

Lemma generate_kjt_inputs_concatenates_witness :
  exists k batches,
    fst (generate_kjt_inputs (G:=MT19937.generator) small_generator
           ["user"; "item"]%string (gen_seed 42)) = Ok k
    /\ length batches = 2%nat
    /\ kjt_values k = concat (map batch_values batches)
    /\ kjt_lengths k = concat (map batch_lengths batches)
    /\ kjt_keys k = ["user"; "item"]%string.
Proof.
  destruct (generate_kjt_inputs (G:=MT19937.generator) small_generator
              ["user"; "item"]%string (gen_seed 42)) as [[k|e] g'] eqn:E.
  - destruct (generate_kjt_inputs_concatenates small_generator _ _ _ _ E)
      as (batches & _ & Hn & _ & Hv & Hl & Hk).
    exists k, batches. repeat split; assumption.
  - exfalso. vm_compute in E. discriminate E.
Defined.

(** C3, as stated, fails: on the generator constructed from the seeded
    configuration of the example, the first and the second call of
    [generate_batch] return different tensors. *)
Lemma generate_batch_repeated_calls_counterexample :
  ~ (forall (bs : list Batch) (i j : nat) (bi bj : Batch),
       fst (batches_after_construction (G:=MT19937.generator)
              small_config 2 fresh) = Ok bs ->
       bs !! i = Some bi -> bs !! j = Some bj ->
       batch_values bi = batch_values bj
       /\ batch_lengths bi = batch_lengths bj).
Proof.
  intros H.
  specialize (H [ {| batch_values := [1; 0; 0; 4; 0];
                     batch_lengths := [1; 2; 1; 1] |};
                  {| batch_values := [4; 1; 2; 0; 0];
                     batch_lengths := [2; 1; 1; 1] |} ]
                0%nat 1%nat _ _ ltac:(vm_compute; reflexivity)
                eq_refl eq_refl).
  destruct H as [H _]. discriminate H.
Qed.

(** C3, amended. For every configuration with a non-null seed, what the
    successive [generate_batch] calls on a newly constructed generator
    return is determined by the configuration: constructed from any two
    states of the random generator, the generators return the same
    sequence of batches (equal "values" and "lengths" call by call), and
    with an accepted seed they leave the random generator in the same
    state. *)
Theorem seeded_construction_deterministic {G : Generator} {A : Allocator}
    (cfg : DataConfig) (s : Z) (n : nat) (g1 g2 : gen_state) :
  seed cfg = Some s ->
  fst (batches_after_construction cfg n g1)
    = fst (batches_after_construction cfg n g2)
  /\ (- 2 ^ 63 <= s < 2 ^ 64 ->
      batches_after_construction cfg n g1
        = batches_after_construction cfg n g2).
Proof.
  intros Hs. unfold batches_after_construction.
  destruct (decide (- 2 ^ 63 <= s < 2 ^ 64)) as [Hr|Hr].
  - rewrite !(bind_step _ _ _ _ _ (init_seeded cfg s _ Hs Hr)).
    split; reflexivity.
  - rewrite !(bind_raise _ _ _ _ _ (init_refused cfg s _ Hs Hr)).
    split; [reflexivity | intros Hr'; contradiction].
Qed.

Lemma seeded_construction_deterministic_witness :
  batches_after_construction (G:=MT19937.generator) small_config 2 fresh
    = batches_after_construction small_config 2 (gen_seed 7).
Proof.
  apply (seeded_construction_deterministic (G:=MT19937.generator)
           small_config 42 2 fresh (gen_seed 7) eq_refl).
  lia.
Defined.

(** C4. Whatever [generate_sequence_lengths(batch_size)] returns is a
    vector of exactly [batch_size] integers, each in
    [min_sequence_length, max_sequence_length); it does return one for
    a non-empty range and a batch size that is not negative and whose
    tensor the allocator grants; and with
    [min_sequence_length == max_sequence_length] it raises instead,
    whatever the batch size: for a batch size that is not negative and
    that the allocator grants, the error is the empty-range error of the
    random-range primitive. *)
Theorem generate_sequence_lengths_spec {G : Generator} {A : Allocator}
    (self : TorchRecDataGenerator) (batch_size : Z) (g : gen_state) :
  (forall t g',
      generate_sequence_lengths self batch_size g = (Ok t, g') ->
      len t = batch_size
      /\ Forall (fun x => min_sequence_length (config self) <= x
                          < max_sequence_length (config self)) t)
  /\ (min_sequence_length (config self) < max_sequence_length (config self) ->
      is_int64 (min_sequence_length (config self)) = true ->
      is_int64 (max_sequence_length (config self)) = true ->
      0 <= batch_size <= int64_max ->
      grants batch_size = true ->
      exists t g', generate_sequence_lengths self batch_size g = (Ok t, g'))
  /\ (min_sequence_length (config self) = max_sequence_length (config self) ->
      (exists e, generate_sequence_lengths self batch_size g = (Raise e, g))
      /\ (is_int64 (min_sequence_length (config self)) = true ->
          0 <= batch_size <= int64_max ->
          grants batch_size = true ->
          generate_sequence_lengths self batch_size g
            = (Raise (RandomRangeError (min_sequence_length (config self))
                                       (max_sequence_length (config self))),
               g))).
Proof.
  unfold generate_sequence_lengths. split; [|split].
  - intros t g' H. exact (randint_ok _ _ _ _ _ _ H).
  - intros Hlt Hlo Hhi Hbs Hgrant. apply randint_returns; assumption.
  - intros Heq. split.
    + apply randint_empty_range. lia.
    + intros Hlo Hbs Hgrant. unfold randint. rewrite <- Heq, Hlo, Hgrant.
      assert (is_int64 batch_size = true) as ->
        by (apply is_int64_spec; unfold int64_max in Hbs; lia).
      simpl.
      destruct (batch_size <? 0) eqn:E1; [lia|].
      destruct (_ <=? _) eqn:E2; [reflexivity|lia].
Qed.

Lemma generate_sequence_lengths_spec_witness :
  (exists t g',
      generate_sequence_lengths (G:=MT19937.generator) small_generator 4
        fresh = (Ok t, g')
      /\ len t = 4 /\ Forall (fun x => 1 <= x < 3) t)
  /\ generate_sequence_lengths (G:=MT19937.generator)
       {| config := flat_config |} 4 fresh
     = (Raise (RandomRangeError 3 3), fresh).
Proof.
  split.
  - destruct (generate_sequence_lengths_spec (G:=MT19937.generator)
                small_generator 4 fresh) as (Hshape & Hreturns & _).
    destruct Hreturns as (t & g' & E);
      [simpl; lia | reflexivity | reflexivity | unfold int64_max; lia
       | reflexivity |].
    exists t, g'. split; [exact E | exact (Hshape t g' E)].
  - destruct (generate_sequence_lengths_spec (G:=MT19937.generator)
                {| config := flat_config |} 4 fresh) as (_ & _ & Hflat).
    destruct (Hflat eq_refl) as [_ Hraise].
    apply Hraise; [reflexivity | unfold int64_max; lia | reflexivity].
Defined.

(** C5, as stated, fails: with an empty list of feature names the call
    does not return a bundle. *)
Lemma generate_kjt_inputs_empty_counterexample :
  ~ (exists k g',
       generate_kjt_inputs (G:=MT19937.generator) small_generator [] fresh
         = (Ok k, g')
       /\ kjt_keys k = [] /\ kjt_values k = [] /\ kjt_lengths k = []).
Proof.
  intros (k & g' & E & _). rewrite generate_kjt_inputs_nil in E.
  discriminate E.
Qed.

(** C5, amended. [generate_kjt_inputs] does not check that the list of
    feature names is non-empty: with an empty list the comprehension
    yields no batch, without a draw from the random generator, and the
    empty list of tensors is handed to the concatenation, which refuses
    it, so the call raises that error and returns no bundle. *)
Theorem generate_kjt_inputs_empty_raises {G : Generator} {A : Allocator}
    (self : TorchRecDataGenerator) (g : gen_state) :
  list_comp (fun _ : string => generate_batch self) [] g = (Ok [], g)
  /\ cat (S:=gen_state) (map batch_values []) g = (Raise EmptyTensorList, g)
  /\ generate_kjt_inputs self [] g = (Raise EmptyTensorList, g).
Proof. repeat split. Qed.

End DataGeneratorsSpec.

(** ** debugging.py *)

Module DebuggingSpec.
Import Py Torch Debugging Examples PyFacts TorchFacts.

(** C6. For every jagged-tensor-like input, [validate_kjt] returns a
    record (it does not raise and leaves the process state alone) whose
    "lengths_match" is false exactly when the sum of the input's
    lengths differs from its number of values, and true otherwise.  The
    sum is the tensor sum the code takes (64-bit); for lengths whose
    exact sum fits in 64 bits it is that exact sum. *)
Theorem validate_kjt_lengths_match (kjt : KeyedJaggedTensor) (rt : runtime) :
  exists v : KjtValidation,
    validate_kjt kjt rt = (Ok v, rt)
    /\ (lengths_match v = false <-> sum (lengths kjt) <> len (values kjt))
    /\ (lengths_match v = true <-> sum (lengths kjt) = len (values kjt))
    /\ (is_int64 (foldr Z.add 0 (lengths kjt)) = true ->
        (lengths_match v = false
         <-> foldr Z.add 0 (lengths kjt) <> len (values kjt))).
Proof.
  eexists. split; [reflexivity|]. cbn [lengths_match].
  split; [|split].
  - apply Z.eqb_neq.
  - apply Z.eqb_eq.
  - intros Hfit. rewrite <- (sum_exact _ Hfit). apply Z.eqb_neq.
Qed.

Lemma validate_kjt_lengths_match_witness :
  exists v,
    validate_kjt short_kjt single_process = (Ok v, single_process)
    /\ lengths_match v = false.
Proof.
  destruct (validate_kjt_lengths_match short_kjt single_process)
    as (v & E & _ & _ & Hexact).
  exists v. split; [exact E|].
  apply (Hexact eq_refl). vm_compute. discriminate.
Defined.

(** C7. Whenever no distributed process group is initialized,
    [check_sharding] returns the single-process defaults: "world_size"
    1 and "local_rank" 0. *)
Theorem check_sharding_single_process {Model : Type} (model : Model)
    (rt : runtime) :
  default_group rt = None ->
  exists st : ShardingStatus,
    check_sharding model rt = (Ok st, rt)
    /\ world_size st = 1 /\ local_rank st = 0.
Proof.
  intros Hnone.
  exists {| world_size := 1; local_rank := 0;
            device_count := cuda_devices rt |}.
  destruct rt as [cuda devices dist group packages].
  simpl in Hnone. subst group. repeat split.
Qed.

Lemma check_sharding_single_process_witness :
  exists st,
    check_sharding tt single_process = (Ok st, single_process)
    /\ world_size st = 1 /\ local_rank st = 0.
Proof.
  apply (check_sharding_single_process tt). reflexivity.
Defined.

(** With an initialized group the group's own figures are reported. *)
Lemma check_sharding_initialized {Model : Type} (model : Model)
    (rt : runtime) (pg : ProcessGroup) :
  default_group rt = Some pg ->
  check_sharding model rt
    = (Ok {| world_size := pg_world_size pg; local_rank := pg_rank pg;
             device_count := cuda_devices rt |}, rt).
Proof.
  intros Hpg. destruct rt as [cuda devices dist group packages].
  simpl in Hpg. subst group. reflexivity.
Qed.

End DebuggingSpec.

(** ** environment.py *)

Module EnvironmentSpec.
Import Py Torch Environment PyFacts.

(** The namespace of the loaded module: the names its statements bind
    and the names every module has; "fbgemm" is not one of them. *)
Lemma environment_module_globals :
  exists globals : namespace,
    load_module module_body = Ok globals
    /\ (("fbgemm" : string) ∉ globals)
    /\ (("torch" : string) ∈ globals).
Proof.
  eexists. split; [vm_compute; reflexivity|].
  split; compute_done.
Qed.

(** What [check_environment] returns, field by field. *)
Lemma check_environment_value (globals : namespace) (rt : runtime) :
  check_environment globals rt
  = (Ok {| env_cuda_available := cuda_available rt;
           gpu_count := if cuda_available rt then cuda_devices rt else 0;
           env_distributed_available := distributed_available rt;
           fbgemm_available :=
             if decide (("fbgemm" : string) ∈ globals) then true
             else false |},
     rt).
Proof.
  destruct rt as [cuda devices dist group packages].
  destruct cuda; reflexivity.
Qed.

(** C9. In every run [check_environment] returns "fbgemm_available"
    false: the check looks the name up in the namespace of its own
    module, where no statement binds it, so it is false in every state
    of the process, whether or not the library is installed. *)
Theorem check_environment_fbgemm_false (rt : runtime) :
  exists st : EnvironmentStatus,
    import_and_check_environment rt = (Ok st, rt)
    /\ fbgemm_available st = false.
Proof.
  destruct environment_module_globals as (globals & Hload & Hnot & _).
  unfold import_and_check_environment.
  rewrite Hload, check_environment_value.
  eexists. split; [reflexivity|].
  cbn [fbgemm_available]. destruct (decide _); [contradiction|reflexivity].
Qed.

(** So it is on a machine on which the library is installed. *)
Example fbgemm_installed_not_seen :
  ("fbgemm" : string) ∈ site_packages Examples.with_fbgemm
  /\ fbgemm_available
       <$> (match fst (import_and_check_environment Examples.with_fbgemm) with
            | Ok st => Some st
            | Raise _ => None
            end)
     = Some false.
Proof. split; [compute_done | vm_compute; reflexivity]. Qed.

End EnvironmentSpec.

(** ** benchmark.py *)

Module BenchmarkFacts.
Import Py Benchmark PyFacts.

Lemma torch_not_builtin : ("torch" : string) ∉ builtins.
Proof. compute_done. Qed.

Lemma range_builtin : ("range" : string) ∈ builtins.
Proof. compute_done. Qed.

Section Benchmark.
Context {F : PyFloat} {P : Process}.

Lemma load_global_builtin globals name (w : world) :
  name ∈ builtins -> load_global globals name w = (Ok tt, w).
Proof.
  intros Hin. unfold load_global.
  destruct (decide _) as [_|Hn]; [reflexivity|].
  exfalso. apply Hn, elem_of_app. right. exact Hin.
Qed.

Lemma load_global_unbound globals name (w : world) :
  name ∉ globals -> name ∉ builtins ->
  load_global globals name w = (Raise (NameError name), w).
Proof.
  intros Hg Hb. unfold load_global.
  destruct (decide _) as [Hin|_]; [|reflexivity].
  exfalso. apply elem_of_app in Hin as [Hin|Hin]; contradiction.
Qed.

Lemma load_global_ok globals name (w w' : world) u :
  load_global globals name w = (Ok u, w') -> w' = w.
Proof.
  unfold load_global. destruct (decide _); intros E; inversion E.
  reflexivity.
Qed.

Section Loop.
Context {X Y : Type} (model : X -> M proc Y) (sample_input : X).

(** One pass of the loop body logs one forward call, whether the
    model returns or raises. *)
Lemma call_trace (w : world) :
  trace (snd (call model sample_input w)) = trace w ++ [Forward].
Proof.
  unfold call. destruct (model sample_input _) as [r p]. reflexivity.
Qed.

Lemma loop_body (w : world) :
  (let* _ := call model sample_input in ret tt) w
  = (match fst (call model sample_input w) with
     | Ok _ => Ok tt
     | Raise e => Raise e
     end, snd (call model sample_input w)).
Proof.
  unfold bind, ret.
  destruct (call model sample_input w) as [[y|e] w1]; reflexivity.
Qed.

(** [n] rounds of the loop make at most [n] forward calls and nothing
    else; exactly [n] when the loop runs to its end, which it does
    when the model never raises. *)
Lemma for_range_calls (n : nat) :
  forall w : world,
  exists k : nat,
    (k <= n)%nat
    /\ trace (snd (for_range n
                     (let* _ := call model sample_input in ret tt) w))
       = trace w ++ replicate k Forward
    /\ (forall u,
           fst (for_range n
                  (let* _ := call model sample_input in ret tt) w)
           = Ok u -> k = n)
    /\ ((forall p, exists y p', model sample_input p = (Ok y, p')) ->
        fst (for_range n
               (let* _ := call model sample_input in ret tt) w)
        = Ok tt).
Proof.
  induction n as [|n IH]; intros w.
  - exists 0%nat. simpl. rewrite app_nil_r. repeat split; lia.
  - rewrite for_range_succ, loop_body.
    pose proof (call_trace w) as Hcall.
    destruct (call model sample_input w) as [[y|e] w1] eqn:Ecall;
      simpl in Hcall; cbn [fst snd].
    + destruct (IH w1) as (k & Hk & Htr & Hall & Htot).
      exists (S k). split; [lia|]. split; [|split].
      * rewrite Htr, Hcall, <- app_assoc. reflexivity.
      * intros u Hu. f_equal. eapply Hall, Hu.
      * intros Hm. apply Htot, Hm.
    + exists 1%nat. split; [lia|]. split; [|split].
      * simpl. exact Hcall.
      * intros u Hu. discriminate Hu.
      * intros Hm. exfalso. unfold call in Ecall.
        destruct (Hm (process (emit Forward w))) as (y & p' & E).
        rewrite E in Ecall. discriminate Ecall.
Qed.

(** A loop that ran to its end made exactly [n] forward calls. *)
Lemma for_range_ok (n : nat) (w w' : world) u :
  for_range n (let* _ := call model sample_input in ret tt) w = (Ok u, w') ->
  trace w' = trace w ++ replicate n Forward.
Proof.
  intros E. destruct (for_range_calls n w) as (k & _ & Htr & Hall & _).
  rewrite E in Htr, Hall. cbn [fst snd] in Htr, Hall.
  rewrite Htr, (Hall u eq_refl). reflexivity.
Qed.

End Loop.

Lemma cuda_synchronize_trace (w : world) :
  trace (snd (cuda_synchronize w)) = trace w ++ [Synchronize].
Proof.
  unfold cuda_synchronize. destruct (synchronize _) as [r p]. reflexivity.
Qed.

Lemma cuda_synchronize_ok (w w' : world) u :
  cuda_synchronize w = (Ok u, w') -> trace w' = trace w ++ [Synchronize].
Proof.
  intros E. pose proof (cuda_synchronize_trace w) as Htr.
  rewrite E in Htr. exact Htr.
Qed.

Lemma time_perf_counter_ok (w w' : world) t :
  time_perf_counter w = (Ok t, w') -> trace w' = trace w ++ [PerfCounter].
Proof.
  unfold time_perf_counter.
  destruct (perf_counter _) as [t0 p]. intros E. inversion E. reflexivity.
Qed.

Lemma cuda_max_memory_allocated_ok (w w' : world) z :
  cuda_max_memory_allocated w = (Ok z, w') ->
  trace w' = trace w ++ [MaxMemoryAllocated].
Proof.
  unfold cuda_max_memory_allocated. intros E. inversion E. reflexivity.
Qed.

Lemma to_float_ok {S} (z : Z) (s s' : S) x :
  to_float z s = (Ok x, s') -> float_of_int z = Some x /\ s' = s.
Proof.
  unfold to_float. destruct (float_of_int z); intros E; inversion E.
  split; reflexivity.
Qed.

Lemma true_div_ok {S} (x y : float) (s s' : S) q :
  true_div x y s = (Ok q, s') -> float_div x y = Some q /\ s' = s.
Proof.
  unfold true_div. destruct (float_div x y); intros E; inversion E.
  split; reflexivity.
Qed.

End Benchmark.

End BenchmarkFacts.

Module BenchmarkSpec.
Import Py Benchmark Examples PyFacts BenchmarkFacts.

(** The names in scope when the class of the benchmark is defined:
    neither "torch" nor "Any" is bound by a statement of the module, and
    neither is a built-in. *)
Lemma benchmark_prelude_names :
  exists ns : namespace,
    module_prelude module_dunders = (Ok tt, ns)
    /\ (("torch" : string) ∉ ns ++ builtins)
    /\ (("Any" : string) ∉ ns ++ builtins)
    /\ (("time" : string) ∈ ns)
    /\ (("BenchmarkResult" : string) ∈ ns).
Proof.
  eexists. split; [vm_compute; reflexivity|].
  repeat split; compute_done.
Qed.

Lemma benchmark_module_load :
  load_module module_body = Raise (NameError "torch").
Proof. vm_compute. reflexivity. Qed.

(** C10. The benchmark module uses the names "torch" and "Any" (in the
    annotations [torch.nn.Module] and [Any] of [benchmark_forward])
    without a statement that binds them, so loading the module fails
    with a name error, and for every model, sample input and batch
    size, importing the module and invoking [benchmark_forward] ends in
    that name error instead of a [BenchmarkResult], the process being
    left as it was. *)
Theorem benchmark_module_name_error :
  (exists ns : namespace,
      module_prelude module_dunders = (Ok tt, ns)
      /\ (("torch" : string) ∉ ns ++ builtins)
      /\ (("Any" : string) ∉ ns ++ builtins))
  /\ load_module module_body = Raise (NameError "torch")
  /\ (forall (F : PyFloat) (P : Process) (warmup measure : Z)
             (X Y : Type) (model : X -> M proc Y) (sample_input : X)
             (batch_size : Z) (w : world),
         import_and_benchmark_forward warmup measure model sample_input
           batch_size w
         = (Raise (NameError "torch"), w)).
Proof.
  split; [|split].
  - destruct benchmark_prelude_names as (ns & E & Ht & Ha & _).
    exists ns. auto.
  - exact benchmark_module_load.
  - intros. unfold import_and_benchmark_forward.
    rewrite benchmark_module_load. reflexivity.
Qed.

Section Benchmark.
Context {F : PyFloat} {P : Process}.

(** In a namespace without "torch" the body of [benchmark_forward]
    does not get past its warmup loop. *)
Lemma benchmark_forward_stops (globals : namespace)
    (self : TorchRecBenchmark) {X Y : Type} (model : X -> M proc Y)
    (sample_input : X) (batch_size : Z) (w : world) :
  ("torch" : string) ∉ globals ->
  benchmark_forward globals self model sample_input batch_size w
  = (match fst (for_range (Z.to_nat (warmup_steps self))
                  (let* _ := call model sample_input in ret tt) w) with
     | Ok _ => Raise (NameError "torch")
     | Raise e => Raise e
     end,
     snd (for_range (Z.to_nat (warmup_steps self))
           (let* _ := call model sample_input in ret tt) w)).
Proof.
  intros Hno. unfold benchmark_forward.
  rewrite (bind_step _ _ _ _ _
             (load_global_builtin globals "range" w range_builtin)).
  destruct (for_range _ _ w) as [[u|e] w1] eqn:Eloop; cbn [fst snd].
  - rewrite (bind_step _ _ _ _ _ Eloop).
    apply bind_raise, load_global_unbound;
      [exact Hno | exact torch_not_builtin].
  - apply bind_raise, Eloop.
Qed.

(** What the body is written to do.  Whenever [benchmark_forward] returns
    (which takes a namespace in which "torch" is bound), it has made
    [warmup_steps] forward calls, synchronized and read the clock, made
    [measure_steps] forward calls, synchronized and read the clock again,
    and read the peak memory; the latency of the result is the time
    between the two readings times 1000 over [measure_steps], and the
    throughput is [batch_size * 1000] over that latency. *)
Lemma benchmark_forward_ok (globals : namespace)
    (self : TorchRecBenchmark) {X Y : Type} (model : X -> M proc Y)
    (sample_input : X) (batch_size : Z) (w w' : world)
    (r : BenchmarkResult) :
  benchmark_forward globals self model sample_input batch_size w
    = (Ok r, w') ->
  trace w'
  = trace w
    ++ replicate (Z.to_nat (warmup_steps self)) Forward
    ++ [Synchronize; PerfCounter]
    ++ replicate (Z.to_nat (measure_steps self)) Forward
    ++ [Synchronize; PerfCounter; MaxMemoryAllocated]
  /\ exists start_time end_time thousand steps items : float,
      float_of_int 1000 = Some thousand
      /\ float_of_int (measure_steps self) = Some steps
      /\ float_div (float_mul (float_sub end_time start_time) thousand) steps
         = Some (batch_time_ms r)
      /\ float_of_int (batch_size * 1000) = Some items
      /\ float_div items (batch_time_ms r) = Some (throughput r).
Proof.
  unfold benchmark_forward. intros E.
  apply bind_ok in E as (? & w1 & E1 & E). apply load_global_ok in E1.
  apply bind_ok in E as (? & w2 & E2 & E). apply for_range_ok in E2.
  apply bind_ok in E as (? & w3 & E3 & E). apply load_global_ok in E3.
  apply bind_ok in E as (? & w4 & E4 & E). apply cuda_synchronize_ok in E4.
  apply bind_ok in E as (? & w5 & E5 & E). apply load_global_ok in E5.
  apply bind_ok in E as (start_time & w6 & E6 & E).
  apply time_perf_counter_ok in E6.
  apply bind_ok in E as (? & w7 & E7 & E). apply load_global_ok in E7.
  apply bind_ok in E as (? & w8 & E8 & E). apply for_range_ok in E8.
  apply bind_ok in E as (? & w9 & E9 & E). apply load_global_ok in E9.
  apply bind_ok in E as (? & w10 & E10 & E). apply cuda_synchronize_ok in E10.
  apply bind_ok in E as (? & w11 & E11 & E). apply load_global_ok in E11.
  apply bind_ok in E as (end_time & w12 & E12 & E).
  apply time_perf_counter_ok in E12.
  apply bind_ok in E as (thousand & w13 & E13 & E).
  apply to_float_ok in E13 as [Hthousand ->].
  apply bind_ok in E as (steps & w14 & E14 & E).
  apply to_float_ok in E14 as [Hsteps ->].
  apply bind_ok in E as (avg_time & w15 & E15 & E).
  apply true_div_ok in E15 as [Havg ->].
  apply bind_ok in E as (? & w16 & E16 & E). apply load_global_ok in E16.
  apply bind_ok in E as (allocated & w17 & E17 & E).
  apply cuda_max_memory_allocated_ok in E17.
  apply bind_ok in E as (? & w18 & E18 & E).
  apply to_float_ok in E18 as [_ ->].
  apply bind_ok in E as (? & w20 & E20 & E).
  apply true_div_ok in E20 as [_ ->].
  apply bind_ok in E as (items & w21 & E21 & E).
  apply to_float_ok in E21 as [Hitems ->].
  apply bind_ok in E as (thr & w22 & E22 & E).
  apply true_div_ok in E22 as [Hthr ->].
  apply bind_ok in E as (? & w23 & E23 & E). apply load_global_ok in E23.
  inversion E; subst; clear E. cbn [batch_time_ms throughput].
  split.
  - rewrite E17, E12, E10, E8, E6, E4, E2. rewrite <- !app_assoc.
    reflexivity.
  - exists start_time, end_time, thousand, steps, items. auto.
Qed.

End Benchmark.

(** With the two missing names bound, the benchmark of a model that takes
    five milliseconds reports a latency of 5 ms and, for batches of 32, a
    throughput of 6400 items per second. *)
Example benchmark_forward_repaired :
  fst (benchmark_forward (P:=millisecond_clock)
         (benchmark_imports ++ ["BenchmarkResult"; "torch"; "Any"]%string)
         (__init__ 3 10) five_ms_model tt 32 idle)
  = Ok (@Build_BenchmarkResult exact_float
          (QArith_base.Qmake 5 1)       (* batch_time_ms *)
          (QArith_base.Qmake 2 1)       (* memory_used_gb *)
          (QArith_base.Qmake 6400 1)).  (* throughput *)
Proof. vm_compute. reflexivity. Qed.

(** C8, on the code as it is. In a namespace in which "torch" is not
    bound, as in every namespace the statements of the module can
    produce, [benchmark_forward] never returns a [BenchmarkResult] for
    any model, sample input and batch size: it makes at most
    [warmup_steps] forward calls and raises, without a synchronization,
    a clock reading or a timed call; when the model itself does not
    raise, the warmup calls are all made and the error is the name
    error for "torch". *)
Theorem benchmark_forward_unbound_torch {F : PyFloat} {P : Process}
    (globals : namespace) (self : TorchRecBenchmark) {X Y : Type}
    (model : X -> M proc Y) (sample_input : X) (batch_size : Z)
    (w : world) :
  ("torch" : string) ∉ globals ->
  exists (e : exn) (k : nat),
    fst (benchmark_forward globals self model sample_input batch_size w)
      = Raise e
    /\ (k <= Z.to_nat (warmup_steps self))%nat
    /\ trace (snd (benchmark_forward globals self model sample_input
                     batch_size w))
       = trace w ++ replicate k Forward
    /\ ((forall p, exists y p', model sample_input p = (Ok y, p')) ->
        e = NameError "torch" /\ k = Z.to_nat (warmup_steps self)).
Proof.
  intros Hno. rewrite (benchmark_forward_stops _ _ _ _ _ _ Hno).
  destruct (for_range_calls model sample_input
              (Z.to_nat (warmup_steps self)) w)
    as (k & Hk & Htr & Hall & Htot).
  cbn [fst snd].
  destruct (fst (for_range _ _ w)) as [u|e] eqn:Eloop.
  - exists (NameError "torch"), k. repeat split; try assumption.
    eapply Hall. reflexivity.
  - exists e, k. split; [reflexivity|]. split; [exact Hk|].
    split; [exact Htr|].
    intros Hmodel. specialize (Htot Hmodel). discriminate Htot.
Qed.

Lemma benchmark_forward_unbound_torch_witness :
  exists e k,
    fst (benchmark_forward (P:=millisecond_clock) benchmark_imports
           (__init__ 3 10) five_ms_model tt 32 idle) = Raise e
    /\ (k <= 3)%nat
    /\ trace (snd (benchmark_forward (P:=millisecond_clock)
                     benchmark_imports (__init__ 3 10) five_ms_model tt 32
                     idle))
       = replicate k Forward.
Proof.
  destruct (benchmark_forward_unbound_torch (P:=millisecond_clock)
              benchmark_imports (__init__ 3 10) five_ms_model tt 32 idle)
    as (e & k & He & Hk & Htr & _).
  - compute_done.
  - exists e, k. split; [exact He|]. split; [exact Hk | exact Htr].
Defined.

End BenchmarkSpec.

(** * Further properties of the helpers *)

(** ** data_generators.py *)

Module DataGeneratorsMore.
Import Py Torch DataGenerators Composition Examples PyFacts TorchFacts
       DataGeneratorsFacts.

Lemma foldr_add_app (t1 t2 : tensor) :
  foldr Z.add 0 (t1 ++ t2) = foldr Z.add 0 t1 + foldr Z.add 0 t2.
Proof. induction t1 as [|x t1 IH]; simpl; lia. Qed.

Lemma foldr_add_concat (ts : list tensor) :
  foldr Z.add 0 (concat ts) = foldr Z.add 0 (map (foldr Z.add 0) ts).
Proof.
  induction ts as [|t ts IH]; simpl; [reflexivity|].
  rewrite foldr_add_app, IH. reflexivity.
Qed.

Lemma Forall_concat {A} (P : A -> Prop) (ls : list (list A)) :
  Forall (Forall P) ls -> Forall P (concat ls).
Proof.
  induction 1 as [|l ls Hl _ IH]; simpl; [constructor|].
  apply Forall_app. split; assumption.
Qed.

(** Every element of a comprehension that returned has what each call
    guarantees of its result. *)
Lemma list_comp_Forall {S A B} (f : A -> M S B) (P : B -> Prop) :
  (forall x s y s', f x s = (Ok y, s') -> P y) ->
  forall xs s ys s', list_comp f xs s = (Ok ys, s') -> Forall P ys.
Proof.
  intros Hf. induction xs as [|x xs IH]; simpl; intros s ys s' E.
  - inversion E. constructor.
  - apply bind_ok in E as (y & s1 & Ey & E).
    apply bind_ok in E as (ys' & s2 & Eys & E).
    inversion E; subst. constructor; eauto.
Qed.

(** A comprehension over a concatenation runs the two comprehensions one
    after the other. *)
Lemma list_comp_app {S A B} (f : A -> M S B) (xs ys : list A) (s : S) :
  list_comp f (xs ++ ys) s
  = (let* a := list_comp f xs in
     let* b := list_comp f ys in
     ret (a ++ b)) s.
Proof.
  revert s. induction xs as [|x xs IH]; intros s; simpl.
  - unfold bind, ret. destruct (list_comp f ys s) as [[b|e] s1]; reflexivity.
  - unfold bind at 1 3 4. destruct (f x s) as [[y|e] s1]; [|reflexivity].
    unfold bind at 1. rewrite IH. unfold bind, ret.
    destruct (list_comp f xs s1) as [[a|e] s2]; [|reflexivity].
    destruct (list_comp f ys s2) as [[b|e] s3]; reflexivity.
Qed.

(** A comprehension whose body ignores the element depends only on the
    number of elements. *)
Lemma list_comp_const {S A A' B} (c : M S B) (xs : list A) (xs' : list A') :
  length xs = length xs' ->
  list_comp (fun _ => c) xs = list_comp (fun _ => c) xs'.
Proof.
  revert xs'. induction xs as [|x xs IH]; intros [|x' xs'] Hlen;
    simpl in *; try discriminate; [reflexivity|].
  rewrite (IH xs') by congruence. reflexivity.
Qed.

Section Generator.
Context {G : Generator} {A : Allocator}.

(** What the arguments of a [randint] that returned were. *)
Lemma randint_requires low high size g t g' :
  randint low high size g = (Ok t, g') -> low < high /\ 0 <= size.
Proof.
  unfold randint. destruct (negb (is_int64 _ && _ && _)); [discriminate|].
  destruct (size <? 0) eqn:E1; [discriminate|].
  destruct (negb (grants size)); [discriminate|].
  destruct (high <=? low) eqn:E2; [discriminate|].
  intros _. lia.
Qed.

(** In a returned batch the exact sum of the lengths, when they are not
    negative and [batch_size] of the largest fit in 64 bits, is the
    number of values. *)
Lemma batch_exact_sum self g b g' :
  0 <= min_sequence_length (config self) ->
  batch_size (config self) * max_sequence_length (config self) <= 2 ^ 63 - 1 ->
  generate_batch self g = (Ok b, g') ->
  foldr Z.add 0 (batch_lengths b) = len (batch_values b).
Proof.
  intros Hmin Hfit E.
  pose proof (generate_batch_shape _ _ _ _ E) as (Hlen & _ & _).
  apply (generate_batch_exact_sum self g b g'); try assumption.
  assert (0 <= len (batch_lengths b)) by (unfold len; lia). nia.
Qed.

(** The bundle of [generate_kjt_inputs], batch by batch. *)
Lemma generate_kjt_inputs_batches self names g k g' :
  generate_kjt_inputs self names g = (Ok k, g') ->
  exists batches,
    names <> []
    /\ length batches = length names
    /\ Forall (fun b => exists g0 g1, generate_batch self g0 = (Ok b, g1))
              batches
    /\ kjt_values k = concat (map batch_values batches)
    /\ kjt_lengths k = concat (map batch_lengths batches)
    /\ kjt_keys k = names.
Proof.
  unfold generate_kjt_inputs. intros E.
  apply bind_ok in E as (batches & g1 & Hb & E).
  apply bind_ok in E as (values & g2 & Hvalues & E).
  apply bind_ok in E as (lengths & g3 & Hlengths & E).
  apply cat_ok in Hvalues as (Hne & -> & -> & _).
  apply cat_ok in Hlengths as (_ & -> & -> & _).
  inversion E; subst; clear E. cbn [kjt_values kjt_lengths kjt_keys].
  exists batches.
  pose proof (list_comp_length _ _ _ _ _ Hb) as Hlen.
  assert (Forall (fun b => exists g0 g1, generate_batch self g0 = (Ok b, g1))
                 batches) as Hall.
  { eapply (list_comp_Forall (fun _ : string => generate_batch self));
      [|exact Hb]. intros _ s y s' Hy. eauto. }
  repeat split; try assumption; try reflexivity.
  intros ->. destruct batches; [apply Hne; reflexivity | discriminate Hlen].
Qed.

(** The exact sum of the lengths of a returned bundle is its number of
    values, when the lengths are not negative and all of them together
    fit in 64 bits. *)
Lemma kjt_inputs_exact_sum self names g k g' :
  0 <= min_sequence_length (config self) ->
  Z.of_nat (length names) * batch_size (config self)
    * max_sequence_length (config self) <= 2 ^ 63 - 1 ->
  generate_kjt_inputs self names g = (Ok k, g') ->
  foldr Z.add 0 (kjt_lengths k) = len (kjt_values k)
  /\ 0 <= foldr Z.add 0 (kjt_lengths k) <= 2 ^ 63 - 1.
Proof.
  intros Hmin Hfit E.
  apply generate_kjt_inputs_batches in E
    as (batches & Hne & Hlen & Hall & Hv & Hl & _).
  rewrite Hv, Hl, foldr_add_concat, len_concat, !map_map. clear Hv Hl k.
  assert (1 <= Z.of_nat (length names)) as Hn
    by (destruct names; [congruence | simpl; lia]).
  rewrite <- Hlen in Hfit, Hn. clear Hlen Hne names.
  assert (Forall (fun b => foldr Z.add 0 (batch_lengths b)
                           = len (batch_values b)
                           /\ 0 <= foldr Z.add 0 (batch_lengths b)
                              <= batch_size (config self)
                                 * max_sequence_length (config self)
                           /\ 0 <= batch_size (config self)
                                   * max_sequence_length (config self))
                 batches) as Hbatch.
  { eapply Forall_impl; [exact Hall|]. intros b (g0 & g1 & E). cbn beta.
    pose proof (generate_batch_shape _ _ _ _ E) as (Hlen & Hin & _).
    pose proof (foldr_add_bounds _ _ _ Hin) as Hsum. rewrite Hlen in Hsum.
    assert (0 <= len (batch_lengths b)) by (unfold len; lia).
    assert (0 <= batch_size (config self)) by lia.
    pose proof (generate_batch_ok _ _ _ _ E) as (g2 & Hlens & _).
    apply randint_requires in Hlens as [Hlt _].
    assert (0 <= batch_size (config self) * max_sequence_length (config self))
      by nia.
    split; [|split; [nia | assumption]].
    apply (batch_exact_sum self g0 b g1); [assumption | nia | exact E]. }
  clear Hall.
  assert (foldr Z.add 0 (map (fun b => foldr Z.add 0 (batch_lengths b)) batches)
          = foldr Z.add 0 (map (fun b => len (batch_values b)) batches)
          /\ 0 <= foldr Z.add 0
                    (map (fun b => foldr Z.add 0 (batch_lengths b)) batches)
               <= Z.of_nat (length batches)
                  * (batch_size (config self)
                     * max_sequence_length (config self))) as [Heq Hbound].
  { clear Hfit Hn.
    induction Hbatch as [|b bs (Hb & Hrange & Hpos) _ [IH1 IH2]].
    - simpl. lia.
    - cbn [map foldr length]. rewrite Nat2Z.inj_succ. split; [lia | nia]. }
  split; [exact Heq | nia].
Qed.

(** The sizes of the two concatenations of a list of returned batches,
    for lengths that are not negative. *)
Lemma batches_sizes self (batches : list Batch) :
  0 <= min_sequence_length (config self) ->
  batch_size (config self) * max_sequence_length (config self) <= 2 ^ 63 - 1 ->
  Forall (fun b => exists g0 g1, generate_batch self g0 = (Ok b, g1))
         batches ->
  0 <= len (concat (map batch_values batches))
    <= Z.of_nat (length batches)
       * (batch_size (config self) * max_sequence_length (config self))
  /\ 0 <= len (concat (map batch_lengths batches))
       <= Z.of_nat (length batches)
          * (batch_size (config self) * max_sequence_length (config self)).
Proof.
  intros Hmin Hfit Hall.
  induction Hall as [|b bs (g0 & g1 & E) _ [IHv IHl]].
  - simpl. unfold len. simpl. lia.
  - cbn [map concat length]. rewrite !len_app, Nat2Z.inj_succ.
    pose proof (generate_batch_shape _ _ _ _ E) as (Hlen & Hin & _).
    pose proof (foldr_add_bounds _ _ _ Hin) as Hsum. rewrite Hlen in Hsum.
    pose proof (batch_exact_sum self g0 b g1 Hmin Hfit E) as Hexact.
    pose proof (generate_batch_ok _ _ _ _ E) as (g2 & Hlens & _).
    apply randint_requires in Hlens as [Hlt Hbs].
    split; nia.
Qed.

(** With at least one feature name, on a configuration with sensible
    bounds, [generate_kjt_inputs] returns when the allocator grants
    tensors of up to [batch_size * max_sequence_length] entries per
    feature name. *)
Lemma generate_kjt_inputs_returns self names g :
  names <> [] ->
  0 <= min_sequence_length (config self) ->
  min_sequence_length (config self) < max_sequence_length (config self) ->
  max_sequence_length (config self) <= int64_max ->
  0 <= batch_size (config self) ->
  Z.of_nat (length names)
    * (batch_size (config self) * max_sequence_length (config self))
    <= int64_max ->
  0 < num_products (config self) <= int64_max ->
  (forall n,
      0 <= n <= Z.of_nat (length names)
                * (batch_size (config self)
                   * max_sequence_length (config self)) ->
      grants n = true) ->
  exists k g', generate_kjt_inputs self names g = (Ok k, g').
Proof.
  intros Hne Hmin Hlt Hmax Hbs Hfit Hprod Hgrant. unfold int64_max in *.
  assert (1 <= Z.of_nat (length names)) as Hn
    by (destruct names; [congruence | simpl; lia]).
  assert (0 <= batch_size (config self) * max_sequence_length (config self))
    as Hpos by nia.
  assert (forall g0, exists b g1, generate_batch self g0 = (Ok b, g1))
    as Hbatch.
  { intros g0. apply generate_batch_returns; unfold int64_max;
      try assumption; try nia.
    intros n Hrange. apply Hgrant. nia. }
  destruct (batches_return self names Hbatch g) as (batches & g' & E).
  pose proof (list_comp_length _ _ _ _ _ E) as Hlen.
  assert (Forall (fun b => exists g0 g1, generate_batch self g0 = (Ok b, g1))
                 batches) as Hall.
  { eapply (list_comp_Forall (fun _ : string => generate_batch self));
      [|exact E]. intros _ s y s' Hy. eauto. }
  destruct (batches_sizes self batches Hmin ltac:(nia) Hall) as [Hv Hl].
  rewrite Hlen in Hv, Hl.
  unfold generate_kjt_inputs. rewrite (bind_step _ _ _ _ _ E).
  destruct batches as [|b bs];
    [destruct names; [congruence | discriminate Hlen]|].
  cbn [map] in Hv, Hl. unfold cat. cbn [map].
  rewrite (Hgrant _ Hv), (Hgrant _ Hl).
  eexists _, _. reflexivity.
Qed.

End Generator.

End DataGeneratorsMore.

Module DataGeneratorsExtra.
Import Py Torch DataGenerators Composition Examples MoreExamples PyFacts
       TorchFacts DataGeneratorsFacts DataGeneratorsMore.

(** X1. A batch is only returned for a configuration with
    [min_sequence_length < max_sequence_length], a batch size that is not
    negative and a positive [num_products]; it then has [batch_size]
    lengths, each in [min_sequence_length, max_sequence_length), and every
    value is in [0, num_products). *)
Theorem generate_batch_postcondition {G : Generator} {A : Allocator}
    (self : TorchRecDataGenerator) (g g' : gen_state) (b : Batch) :
  generate_batch self g = (Ok b, g') ->
  (min_sequence_length (config self) < max_sequence_length (config self)
   /\ 0 <= batch_size (config self)
   /\ 0 < num_products (config self))
  /\ len (batch_lengths b) = batch_size (config self)
  /\ Forall (fun x => min_sequence_length (config self) <= x
                      < max_sequence_length (config self))
            (batch_lengths b)
  /\ Forall (fun x => 0 <= x < num_products (config self)) (batch_values b).
Proof.
  intros E. pose proof (generate_batch_shape _ _ _ _ E) as (Hlen & Hl & Hv).
  apply generate_batch_ok in E as (g1 & Hlens & Hvals).
  apply randint_requires in Hlens as [Hlt Hbs].
  apply randint_requires in Hvals as [Hprod _].
  repeat split; assumption.
Qed.

Lemma generate_batch_postcondition_witness :
  exists b,
    fst (generate_batch (G:=MT19937.generator) small_generator fresh) = Ok b
    /\ len (batch_lengths b) = 4
    /\ Forall (fun x => 1 <= x < 3) (batch_lengths b)
    /\ Forall (fun x => 0 <= x < 5) (batch_values b).
Proof.
  destruct (generate_batch (G:=MT19937.generator) small_generator fresh)
    as [[b|e] g'] eqn:E.
  - exists b. split; [reflexivity|].
    exact (proj2 (generate_batch_postcondition small_generator _ _ _ E)).
  - exfalso. vm_compute in E. discriminate E.
Defined.

(** X2. On a configuration with
    [0 <= min_sequence_length < max_sequence_length], a batch size that is
    not negative, a positive [num_products], and bounds within 64 bits
    ([batch_size * max_sequence_length] included), and with an allocator
    that grants tensors of up to [batch_size * max_sequence_length]
    entries, [generate_batch] returns a batch, from every state of the
    random generator, and the exact sum of its lengths is its number of
    values. *)
Theorem generate_batch_returns_valid {G : Generator} {A : Allocator}
    (self : TorchRecDataGenerator) (g : gen_state) :
  0 <= min_sequence_length (config self) ->
  min_sequence_length (config self) < max_sequence_length (config self) ->
  max_sequence_length (config self) <= int64_max ->
  0 <= batch_size (config self) ->
  batch_size (config self) * max_sequence_length (config self)
    <= int64_max ->
  0 < num_products (config self) <= int64_max ->
  (forall n,
      0 <= n <= batch_size (config self) * max_sequence_length (config self) ->
      grants n = true) ->
  exists b g',
    generate_batch self g = (Ok b, g')
    /\ foldr Z.add 0 (batch_lengths b) = len (batch_values b).
Proof.
  intros Hmin Hlt Hmax Hbs Hfit Hprod Hgrant.
  destruct (generate_batch_returns self g Hmin Hlt Hmax Hbs Hfit Hprod Hgrant)
    as (b & g' & E).
  exists b, g'. split; [exact E|].
  apply (batch_exact_sum self g b g'); [assumption | exact Hfit | exact E].
Qed.

Lemma generate_batch_returns_valid_witness :
  exists b g',
    generate_batch (G:=MT19937.generator) {| config := default_config |} fresh
      = (Ok b, g')
    /\ foldr Z.add 0 (batch_lengths b) = len (batch_values b).
Proof.
  apply (generate_batch_returns_valid (G:=MT19937.generator)
           {| config := default_config |} fresh);
    unfold int64_max; simpl; try lia.
  intros n Hn. unfold grants. apply orb_true_iff. right. simpl.
  apply Z.leb_le. lia.
Defined.

(** X3. A bundle is only returned for a non-empty list of feature names;
    its "lengths" then has [batch_size] entries per name, each in
    [min_sequence_length, max_sequence_length), and every entry of its
    "values" is in [0, num_products). *)
Theorem generate_kjt_inputs_shape {G : Generator} {A : Allocator}
    (self : TorchRecDataGenerator) (feature_names : list string)
    (g g' : gen_state) (k : KjtInputs) :
  generate_kjt_inputs self feature_names g = (Ok k, g') ->
  feature_names <> []
  /\ len (kjt_lengths k)
     = Z.of_nat (length feature_names) * batch_size (config self)
  /\ Forall (fun x => min_sequence_length (config self) <= x
                      < max_sequence_length (config self))
            (kjt_lengths k)
  /\ Forall (fun x => 0 <= x < num_products (config self)) (kjt_values k).
Proof.
  intros E. apply generate_kjt_inputs_batches in E
    as (batches & Hne & Hlen & Hall & Hv & Hl & _).
  rewrite Hv, Hl, <- Hlen. clear Hv Hl Hlen k.
  split; [exact Hne|]. split; [|split].
  - rewrite len_concat, map_map.
    induction Hall as [|b bs (g0 & g1 & E) _ IH]; [reflexivity|].
    cbn [map foldr length]. rewrite IH, Nat2Z.inj_succ.
    pose proof (generate_batch_shape _ _ _ _ E) as (Hlen & _). lia.
  - apply Forall_concat, Forall_map.
    eapply Forall_impl; [exact Hall|]. intros b (g0 & g1 & E).
    apply (generate_batch_shape _ _ _ _ E).
  - apply Forall_concat, Forall_map.
    eapply Forall_impl; [exact Hall|]. intros b (g0 & g1 & E).
    apply (generate_batch_shape _ _ _ _ E).
Qed.

Lemma generate_kjt_inputs_shape_witness :
  exists k,
    fst (generate_kjt_inputs (G:=MT19937.generator) small_generator
           ["user"; "item"]%string fresh) = Ok k
    /\ len (kjt_lengths k) = 8
    /\ Forall (fun x => 1 <= x < 3) (kjt_lengths k)
    /\ Forall (fun x => 0 <= x < 5) (kjt_values k).
Proof.
  destruct (generate_kjt_inputs (G:=MT19937.generator) small_generator
              ["user"; "item"]%string fresh) as [[k|e] g'] eqn:E.
  - exists k. split; [reflexivity|].
    exact (proj2 (generate_kjt_inputs_shape small_generator _ _ _ _ E)).
  - exfalso. vm_compute in E. discriminate E.
Defined.

(** X4. A bundle returned by [generate_kjt_inputs] passes the checks of
    [validate_kjt] on its keys and on its lengths, when the configured
    lengths are not negative and the lengths of all the features together
    fit in 64 bits: the jagged tensor built from it has "valid_keys" and
    "lengths_match" true. *)
Theorem generated_bundle_validates {G : Generator} {A : Allocator}
    (self : TorchRecDataGenerator) (feature_names : list string)
    (g g' : gen_state) (k : KjtInputs) (on_cuda : bool) (rt : runtime) :
  0 <= min_sequence_length (config self) ->
  Z.of_nat (length feature_names) * batch_size (config self)
    * max_sequence_length (config self) <= 2 ^ 63 - 1 ->
  generate_kjt_inputs self feature_names g = (Ok k, g') ->
  exists v,
    Debugging.validate_kjt (as_kjt k on_cuda) rt = (Ok v, rt)
    /\ Debugging.valid_keys v = true
    /\ Debugging.lengths_match v = true.
Proof.
  intros Hmin Hfit E.
  pose proof (kjt_inputs_exact_sum _ _ _ _ _ Hmin Hfit E) as [Hsum Hrange].
  apply generate_kjt_inputs_batches in E
    as (batches & Hne & _ & _ & _ & _ & Hkeys).
  eexists. split; [reflexivity|]. cbn. split.
  - rewrite Hkeys. destruct feature_names; [congruence | reflexivity].
  - apply Z.eqb_eq. rewrite <- Hsum. apply sum_exact, is_int64_spec. lia.
Qed.

Lemma generated_bundle_validates_witness :
  exists k v,
    fst (generate_kjt_inputs (G:=MT19937.generator) small_generator
           ["user"; "item"]%string fresh) = Ok k
    /\ Debugging.validate_kjt (as_kjt k false) single_process
       = (Ok v, single_process)
    /\ Debugging.valid_keys v = true
    /\ Debugging.lengths_match v = true.
Proof.
  destruct (generate_kjt_inputs (G:=MT19937.generator) small_generator
              ["user"; "item"]%string fresh) as [[k|e] g'] eqn:E.
  - destruct (generated_bundle_validates (G:=MT19937.generator)
                small_generator ["user"; "item"]%string fresh g' k false
                single_process) as (v & Ev & Hk & Hl);
      [simpl; lia | simpl; lia | exact E |].
    exists k, v. repeat split; assumption.
  - exfalso. vm_compute in E. discriminate E.
Defined.

(** X5. With a [num_products] that is not positive [generate_batch] never
    returns a batch; when the lengths could be drawn the call raises only
    after drawing them, so the failed call leaves the random generator in
    the state after those draws. *)
Theorem generate_batch_no_products {G : Generator} {A : Allocator}
    (self : TorchRecDataGenerator) (g : gen_state) :
  num_products (config self) <= 0 ->
  (forall b g', generate_batch self g <> (Ok b, g'))
  /\ (forall lens g1,
         generate_sequence_lengths self (batch_size (config self)) g
           = (Ok lens, g1) ->
         exists e, generate_batch self g = (Raise e, g1)).
Proof.
  intros Hprod. split.
  - intros b g' E. apply generate_batch_ok in E as (g1 & _ & Hvals).
    apply randint_requires in Hvals. lia.
  - intros lens g1 Hlens. unfold generate_batch.
    rewrite (bind_step _ _ _ _ _ Hlens).
    destruct (randint_empty_range 0 (num_products (config self))
                (sum lens) g1 Hprod) as (e & He).
    exists e. apply bind_raise, He.
Qed.

Lemma generate_batch_no_products_witness :
  (forall b g',
      generate_batch (G:=MT19937.generator)
        {| config := no_products_config |} fresh <> (Ok b, g'))
  /\ snd (generate_batch (G:=MT19937.generator)
            {| config := no_products_config |} fresh)
     = snd (generate_sequence_lengths (G:=MT19937.generator)
              {| config := no_products_config |} 4 fresh).
Proof.
  destruct (generate_batch_no_products (G:=MT19937.generator)
              {| config := no_products_config |} fresh) as [Hnever Hafter];
    [simpl; lia|].
  split; [exact Hnever|].
  destruct (generate_sequence_lengths (G:=MT19937.generator)
              {| config := no_products_config |} 4 fresh)
    as [[lens|e] g1] eqn:E.
  - destruct (Hafter lens g1 E) as (e & He). rewrite He. reflexivity.
  - exfalso. vm_compute in E. discriminate E.
Defined.

(** X6. With [batch_size] 0, on a configuration with a non-empty length
    range and a positive [num_products] within 64 bits, [generate_batch]
    returns the empty batch without a draw from the random generator. *)
Theorem generate_batch_no_rows {G : Generator} {A : Allocator}
    (self : TorchRecDataGenerator) (g : gen_state) :
  batch_size (config self) = 0 ->
  min_sequence_length (config self) < max_sequence_length (config self) ->
  is_int64 (min_sequence_length (config self)) = true ->
  is_int64 (max_sequence_length (config self)) = true ->
  0 < num_products (config self) <= int64_max ->
  generate_batch self g
  = (Ok {| batch_values := []; batch_lengths := [] |}, g).
Proof.
  intros Hbs Hlt Hlo Hhi Hprod.
  assert (forall low high, is_int64 low = true -> is_int64 high = true ->
                           low < high -> randint low high 0 g = (Ok [], g))
    as Hempty.
  { intros low high Hl Hh Hlh. unfold randint. rewrite Hl, Hh. simpl.
    destruct (high <=? low) eqn:E; [lia | reflexivity]. }
  unfold generate_batch, generate_sequence_lengths. rewrite Hbs.
  rewrite (bind_step _ _ _ _ _ (Hempty _ _ Hlo Hhi Hlt)).
  change (sum []) with 0.
  rewrite (bind_step _ _ _ _ _
             (Hempty 0 (num_products (config self)) eq_refl
                ltac:(apply is_int64_spec; unfold int64_max in Hprod; lia)
                ltac:(lia))).
  reflexivity.
Qed.

Lemma generate_batch_no_rows_witness :
  generate_batch (G:=MT19937.generator) {| config := no_rows_config |} fresh
  = (Ok {| batch_values := []; batch_lengths := [] |}, fresh).
Proof.
  apply (generate_batch_no_rows (G:=MT19937.generator)
           {| config := no_rows_config |} fresh);
    try reflexivity; unfold int64_max; simpl; lia.
Defined.

(** X7. Without a seed, constructing a generator does not touch the
    random generator: a second generator constructed later continues the
    stream of the first, so [n] batches from one generator followed by
    [m] batches from a newly constructed one are the [n + m] batches one
    generator would have returned (and the calls fail alike). *)
Theorem unseeded_generators_share_stream {G : Generator} {A : Allocator}
    (cfg : DataConfig) (n m : nat) (g : gen_state) :
  seed cfg = None ->
  (let* first := batches_after_construction cfg n in
   let* second := batches_after_construction cfg m in
   ret (first ++ second)) g
  = batches_after_construction cfg (n + m) g.
Proof.
  intros Hseed.
  assert (forall k, batches_after_construction cfg k
                    = list_comp (fun _ : nat => generate_batch
                                                  {| config := cfg |})
                                (seq 0 k)) as Hrun.
  { intros k. unfold batches_after_construction, __init__.
    rewrite Hseed. reflexivity. }
  rewrite !Hrun, seq_app, list_comp_app.
  rewrite (list_comp_const _ (seq (0 + n) m) (seq 0 m))
    by (rewrite !length_seq; reflexivity).
  reflexivity.
Qed.

Lemma unseeded_generators_share_stream_witness :
  (let* first := batches_after_construction default_config 1 in
   let* second := batches_after_construction default_config 2 in
   ret (first ++ second)) fresh
  = batches_after_construction (G:=MT19937.generator) default_config 3 fresh.
Proof.
  apply (unseeded_generators_share_stream (G:=MT19937.generator)
           default_config 1 2 fresh).
  reflexivity.
Defined.

End DataGeneratorsExtra.

(** ** debugging.py and environment.py *)

Module RuntimeExtra.
Import Py Torch Debugging Environment DistributedSetup Examples
       RuntimeExamples PyFacts.

(** X9. [check_sharding] never raises and changes nothing, although the
    queries for world size and rank raise without a process group: it
    reports the device count of the runtime and, with an initialized
    group, the world size and the rank of that group. *)
Theorem check_sharding_reports {Model : Type} (model : Model)
    (rt : runtime) :
  exists st : ShardingStatus,
    check_sharding model rt = (Ok st, rt)
    /\ device_count st = cuda_devices rt
    /\ (forall pg, default_group rt = Some pg ->
          world_size st = pg_world_size pg /\ local_rank st = pg_rank pg)
    /\ (default_group rt = None ->
        fst (distributed_get_world_size rt) = Raise ProcessGroupNotInitialized
        /\ fst (distributed_get_rank rt) = Raise ProcessGroupNotInitialized).
Proof.
  destruct rt as [cuda devices dist [pg|] packages].
  - eexists. split; [reflexivity|]. cbn. split; [reflexivity|]. split.
    + intros pg' E. inversion E; subst. split; reflexivity.
    + discriminate.
  - eexists. split; [reflexivity|]. cbn. split; [reflexivity|]. split.
    + discriminate.
    + intros _. split; reflexivity.
Qed.

Lemma check_sharding_reports_witness :
  exists st,
    check_sharding tt nccl_pair = (Ok st, nccl_pair)
    /\ device_count st = 2 /\ world_size st = 2 /\ local_rank st = 1.
Proof.
  destruct (check_sharding_reports tt nccl_pair) as (st & E & Hd & Hpg & _).
  exists st. split; [exact E|]. split; [exact Hd|].
  apply (Hpg _ eq_refl).
Defined.

(** The generator over the variables, evaluated. *)
Lemma all_in_environ_spec (vars : list string) (s : process_env) :
  exists b : bool,
    all_in_environ vars s = (Ok b, s)
    /\ (b = true <-> Forall (fun var => is_Some (environ s !! var)) vars).
Proof.
  induction vars as [|var vars (b & E & Hb)]; simpl.
  - exists true. split; [reflexivity|]. split; [constructor | reflexivity].
  - unfold bind, in_environ. destruct (decide (is_Some (environ s !! var)))
      as [Hin|Hout].
    + rewrite bool_decide_true by exact Hin. exists b. split; [exact E|].
      rewrite Hb. split.
      * intros H. constructor; assumption.
      * intros H. inversion H; assumption.
    + rewrite bool_decide_false by exact Hout. exists false.
      split; [reflexivity|]. split; [discriminate|].
      intros H. inversion H; contradiction.
Qed.

(** What [check_distributed_setup] returns, field by field. *)
Lemma check_distributed_setup_value (s : process_env) :
  exists b : bool,
    check_distributed_setup s
    = (Ok {| env_vars_set := b;
             process_group_initialized :=
               bool_decide (is_Some (default_group (env_runtime s)));
             backend := pg_backend <$> default_group (env_runtime s) |}, s)
    /\ (b = true
        <-> Forall (fun var => is_Some (environ s !! var)) required_vars).
Proof.
  destruct (all_in_environ_spec required_vars s) as (b & E & Hb).
  exists b. split; [|exact Hb].
  unfold check_distributed_setup. rewrite (bind_step _ _ _ _ _ E).
  destruct s as [[cuda devices dist [pg|] packages] env]; reflexivity.
Qed.

(** X11. [check_distributed_setup] never raises and changes nothing;
    "env_vars_set" is true exactly when MASTER_ADDR, MASTER_PORT,
    WORLD_SIZE and RANK are all present in the environment, whatever
    their values and whatever else is set. *)
Theorem check_distributed_setup_env_vars (s : process_env) :
  exists st : DistributedStatus,
    check_distributed_setup s = (Ok st, s)
    /\ (env_vars_set st = true
        <-> is_Some (environ s !! "MASTER_ADDR")
            /\ is_Some (environ s !! "MASTER_PORT")
            /\ is_Some (environ s !! "WORLD_SIZE")
            /\ is_Some (environ s !! "RANK")).
Proof.
  destruct (check_distributed_setup_value s) as (b & E & Hb).
  eexists. split; [exact E|]. cbn [env_vars_set]. rewrite Hb.
  unfold required_vars. rewrite !Forall_cons, Forall_nil. tauto.
Qed.

Lemma check_distributed_setup_env_vars_witness :
  exists st,
    check_distributed_setup launched_pair = (Ok st, launched_pair)
    /\ env_vars_set st = true.
Proof.
  destruct (check_distributed_setup_env_vars launched_pair)
    as (st & E & Hvars).
  exists st. split; [exact E|]. apply Hvars.
  repeat split; compute_done.
Defined.

(** X12. Unsetting any one of the four required variables makes
    "env_vars_set" false, whatever the other variables are. *)
Theorem check_distributed_setup_missing_var (rt : runtime)
    (env : gmap string string) (var : string) :
  var ∈ required_vars ->
  exists st : DistributedStatus,
    check_distributed_setup
      {| env_runtime := rt; environ := delete var env |}
    = (Ok st, {| env_runtime := rt; environ := delete var env |})
    /\ env_vars_set st = false.
Proof.
  intros Hvar.
  destruct (check_distributed_setup_value
              {| env_runtime := rt; environ := delete var env |})
    as (b & E & Hb).
  eexists. split; [exact E|]. cbn [env_vars_set].
  destruct b; [|reflexivity]. exfalso.
  destruct Hb as [Hb _]. specialize (Hb eq_refl).
  rewrite Forall_forall in Hb. specialize (Hb var Hvar). cbn in Hb.
  rewrite lookup_delete_eq in Hb. destruct Hb as [x Hx]. discriminate Hx.
Qed.

Lemma check_distributed_setup_missing_var_witness :
  exists st,
    check_distributed_setup half_launched = (Ok st, half_launched)
    /\ env_vars_set st = false.
Proof.
  apply (check_distributed_setup_missing_var single_process launched "RANK").
  compute_done.
Defined.

(** X13. [check_distributed_setup] reports a backend exactly when it
    reports an initialized process group (the backend of that group), and
    when it reports none [check_sharding], on the same runtime, reports
    the single-process world size 1 and rank 0. *)
Theorem distributed_status_consistent {Model : Type} (model : Model)
    (s : process_env) :
  exists (d : DistributedStatus) (st : ShardingStatus),
    check_distributed_setup s = (Ok d, s)
    /\ check_sharding model (env_runtime s) = (Ok st, env_runtime s)
    /\ (process_group_initialized d = true
        <-> exists name, backend d = Some name)
    /\ (forall pg, default_group (env_runtime s) = Some pg ->
          backend d = Some (pg_backend pg)
          /\ world_size st = pg_world_size pg)
    /\ (process_group_initialized d = false ->
        backend d = None /\ world_size st = 1 /\ local_rank st = 0).
Proof.
  destruct (check_distributed_setup_value s) as (b & E & _).
  destruct s as [[cuda devices dist [pg|] packages] env].
  - eexists _, _. split; [exact E|]. split; [reflexivity|]. cbn.
    split; [|split].
    + split; [intros _; eauto | reflexivity].
    + intros pg' Hpg. inversion Hpg; subst. split; reflexivity.
    + discriminate.
  - eexists _, _. split; [exact E|]. split; [reflexivity|]. cbn.
    split; [|split].
    + split; [discriminate | intros (name & Hname); discriminate Hname].
    + discriminate.
    + intros _. repeat split.
Qed.

Lemma distributed_status_consistent_witness :
  exists d st,
    check_distributed_setup launched_pair = (Ok d, launched_pair)
    /\ check_sharding tt nccl_pair = (Ok st, nccl_pair)
    /\ backend d = Some "nccl"%string /\ world_size st = 2.
Proof.
  destruct (distributed_status_consistent tt launched_pair)
    as (d & st & Ed & Es & _ & Hpg & _).
  exists d, st. split; [exact Ed|]. split; [exact Es|].
  apply (Hpg _ eq_refl).
Defined.

End RuntimeExtra.

(** ** Loading the modules *)

Module LoadingExtra.
Import Py Loading.

(** X14. Loading visualization.py fails with a name error for "torch",
    read by the annotation [torch.Tensor] of
    [plot_embedding_distribution] and bound by no statement of the
    module, so neither plotting function can be reached; it is the only
    name missing, since the module loads and binds [TorchRecVisualizer]
    once "torch" is imported first. *)
Theorem visualization_module_name_error :
  load_module visualization_body = Raise (NameError "torch")
  /\ exists globals : namespace,
      load_module (let* _ := import_name "torch" in visualization_body)
        = Ok globals
      /\ (("TorchRecVisualizer" : string) ∈ globals).
Proof.
  split; [vm_compute; reflexivity|].
  eexists. split; [vm_compute; reflexivity | compute_done].
Qed.

(** X15. data_generators.py, debugging.py and environment.py load
    without a name error: every name their annotations and decorators
    read is bound when it is read; they bind their classes, and every
    global name their function bodies read resolves in the loaded
    module. *)
Theorem helper_modules_load :
  (exists globals : namespace,
      load_module data_generators_body = Ok globals
      /\ (("DataConfig" : string) ∈ globals)
      /\ (("TorchRecDataGenerator" : string) ∈ globals)
      /\ Forall (fun name => name ∈ globals ++ builtins)
                data_generators_reads)
  /\ (exists globals : namespace,
        load_module debugging_body = Ok globals
        /\ (("TorchRecDebugger" : string) ∈ globals)
        /\ Forall (fun name => name ∈ globals ++ builtins) debugging_reads)
  /\ (exists globals : namespace,
        load_module Environment.module_body = Ok globals
        /\ (("TorchRecEnvironment" : string) ∈ globals)
        /\ Forall (fun name => name ∈ globals ++ builtins)
                  environment_reads).
Proof.
  split; [|split]; eexists; (split; [vm_compute; reflexivity|]);
    repeat split; compute_done.
Qed.

End LoadingExtra.

(** ** benchmark.py *)

Module BenchmarkExtra.
Import Py Benchmark Examples PyFacts BenchmarkFacts.

Section Benchmark.
Context {F : PyFloat} {P : Process}.

(** The body up to the end of the warmup loop. *)
Lemma benchmark_forward_warmup (globals : namespace)
    (self : TorchRecBenchmark) {X Y : Type} (model : X -> M proc Y)
    (sample_input : X) (batch_size : Z) (w w1 : world) (e : exn) :
  for_range (Z.to_nat (warmup_steps self))
    (let* _ := call model sample_input in ret tt) w = (Raise e, w1) ->
  benchmark_forward globals self model sample_input batch_size w
  = (Raise e, w1).
Proof.
  intros Eloop. unfold benchmark_forward.
  rewrite (bind_step _ _ _ _ _
             (load_global_builtin globals "range" w range_builtin)).
  apply bind_raise, Eloop.
Qed.

(** A loop over a model that does not raise runs to its end. *)
Lemma for_range_total {X Y : Type} (model : X -> M proc Y)
    (sample_input : X) (n : nat) (w : world) :
  (forall p, exists y p', model sample_input p = (Ok y, p')) ->
  exists w1,
    for_range n (let* _ := call model sample_input in ret tt) w = (Ok tt, w1)
    /\ trace w1 = trace w ++ replicate n Forward.
Proof.
  intros Hmodel.
  destruct (for_range_calls model sample_input n w)
    as (k & _ & Htr & Hall & Htot).
  specialize (Htot Hmodel).
  destruct (for_range n _ w) as [r w1] eqn:E. cbn [fst snd] in *. subst r.
  exists w1. split; [reflexivity|]. rewrite Htr, (Hall tt eq_refl).
  reflexivity.
Qed.

End Benchmark.

Section Chain.
Context {F : PyFloat} {P : Process}.

Lemma cuda_max_memory_allocated_value (w w' : world) z :
  cuda_max_memory_allocated w = (Ok z, w') ->
  w' = emit MaxMemoryAllocated w /\ z = max_memory_allocated (process w').
Proof.
  unfold cuda_max_memory_allocated. intros E. inversion E. split; reflexivity.
Qed.

(** The steps of a call of [benchmark_forward] that returned, with the
    states of the process between them. *)
Lemma benchmark_forward_chain (globals : namespace)
    (self : TorchRecBenchmark) {X Y : Type} (model : X -> M proc Y)
    (sample_input : X) (batch_size : Z) (w w' : world)
    (r : BenchmarkResult) :
  benchmark_forward globals self model sample_input batch_size w
    = (Ok r, w') ->
  exists (w1 w2 w3 w4 w5 w6 : world)
         (start_time end_time thousand steps allocated items : float),
    for_range (Z.to_nat (warmup_steps self))
      (let* _ := call model sample_input in ret tt) w = (Ok tt, w1)
    /\ cuda_synchronize w1 = (Ok tt, w2)
    /\ time_perf_counter w2 = (Ok start_time, w3)
    /\ for_range (Z.to_nat (measure_steps self))
         (let* _ := call model sample_input in ret tt) w3 = (Ok tt, w4)
    /\ cuda_synchronize w4 = (Ok tt, w5)
    /\ time_perf_counter w5 = (Ok end_time, w6)
    /\ w' = emit MaxMemoryAllocated w6
    /\ float_of_int 1000 = Some thousand
    /\ float_of_int (measure_steps self) = Some steps
    /\ float_div (float_mul (float_sub end_time start_time) thousand) steps
       = Some (batch_time_ms r)
    /\ float_of_int (max_memory_allocated (process w')) = Some allocated
    /\ float_div allocated float_1e9 = Some (memory_used_gb r)
    /\ float_of_int (batch_size * 1000) = Some items
    /\ float_div items (batch_time_ms r) = Some (throughput r).
Proof.
  unfold benchmark_forward. intros E.
  apply bind_ok in E as (? & w0 & E0 & E). apply load_global_ok in E0.
  subst w0.
  apply bind_ok in E as ([] & w1 & E1 & E).
  apply bind_ok in E as (? & w1' & E1' & E). apply load_global_ok in E1'.
  subst w1'.
  apply bind_ok in E as ([] & w2 & E2 & E).
  apply bind_ok in E as (? & w2' & E2' & E). apply load_global_ok in E2'.
  subst w2'.
  apply bind_ok in E as (start_time & w3 & E3 & E).
  apply bind_ok in E as (? & w3' & E3' & E). apply load_global_ok in E3'.
  subst w3'.
  apply bind_ok in E as ([] & w4 & E4 & E).
  apply bind_ok in E as (? & w4' & E4' & E). apply load_global_ok in E4'.
  subst w4'.
  apply bind_ok in E as ([] & w5 & E5 & E).
  apply bind_ok in E as (? & w5' & E5' & E). apply load_global_ok in E5'.
  subst w5'.
  apply bind_ok in E as (end_time & w6 & E6 & E).
  apply bind_ok in E as (thousand & w7 & E7 & E).
  apply to_float_ok in E7 as [Hthousand ->].
  apply bind_ok in E as (steps & w8 & E8 & E).
  apply to_float_ok in E8 as [Hsteps ->].
  apply bind_ok in E as (avg_time & w9 & E9 & E).
  apply true_div_ok in E9 as [Havg ->].
  apply bind_ok in E as (? & w10 & E10 & E). apply load_global_ok in E10.
  subst w10.
  apply bind_ok in E as (bytes & w11 & E11 & E).
  apply cuda_max_memory_allocated_value in E11 as [-> ->].
  apply bind_ok in E as (allocated & w12 & E12 & E).
  apply to_float_ok in E12 as [Hallocated ->].
  apply bind_ok in E as (memory_used & w13 & E13 & E).
  apply true_div_ok in E13 as [Hmemory ->].
  apply bind_ok in E as (items & w14 & E14 & E).
  apply to_float_ok in E14 as [Hitems ->].
  apply bind_ok in E as (thr & w15 & E15 & E).
  apply true_div_ok in E15 as [Hthr ->].
  apply bind_ok in E as (? & w16 & E16 & E). apply load_global_ok in E16.
  subst w16.
  inversion E; subst; clear E.
  cbn [batch_time_ms memory_used_gb throughput].
  exists w1, w2, w3, w4, w5, w6, start_time, end_time, thousand, steps,
    allocated, items.
  repeat split; assumption.
Qed.

End Chain.

(** X16. Whenever [benchmark_forward] returns a result, "torch" is bound
    in the namespace it ran in, and the call has run, in this order:
    [warmup_steps] forward calls, a synchronization, a first reading of
    the clock, [measure_steps] forward calls, a second synchronization, a
    second reading of the clock, and a reading of the peak memory.  The
    latency of the result is the second reading minus the first, times
    1000, divided by [measure_steps]; its memory is the peak memory
    divided by 1e9; its throughput is [batch_size * 1000] divided by the
    latency. *)
Theorem benchmark_forward_measures {F : PyFloat} {P : Process}
    (globals : namespace) (self : TorchRecBenchmark) {X Y : Type}
    (model : X -> M proc Y) (sample_input : X) (batch_size : Z)
    (w w' : world) (r : BenchmarkResult) :
  benchmark_forward globals self model sample_input batch_size w
    = (Ok r, w') ->
  (("torch" : string) ∈ globals)
  /\ trace w'
     = trace w
       ++ replicate (Z.to_nat (warmup_steps self)) Forward
       ++ [Synchronize; PerfCounter]
       ++ replicate (Z.to_nat (measure_steps self)) Forward
       ++ [Synchronize; PerfCounter; MaxMemoryAllocated]
  /\ exists (w1 w2 w3 w4 w5 w6 : world)
            (start_time end_time thousand steps allocated items : float),
      for_range (Z.to_nat (warmup_steps self))
        (let* _ := call model sample_input in ret tt) w = (Ok tt, w1)
      /\ cuda_synchronize w1 = (Ok tt, w2)
      /\ time_perf_counter w2 = (Ok start_time, w3)
      /\ for_range (Z.to_nat (measure_steps self))
           (let* _ := call model sample_input in ret tt) w3 = (Ok tt, w4)
      /\ cuda_synchronize w4 = (Ok tt, w5)
      /\ time_perf_counter w5 = (Ok end_time, w6)
      /\ w' = emit MaxMemoryAllocated w6
      /\ float_of_int 1000 = Some thousand
      /\ float_of_int (measure_steps self) = Some steps
      /\ float_div (float_mul (float_sub end_time start_time) thousand) steps
         = Some (batch_time_ms r)
      /\ float_of_int (max_memory_allocated (process w')) = Some allocated
      /\ float_div allocated float_1e9 = Some (memory_used_gb r)
      /\ float_of_int (batch_size * 1000) = Some items
      /\ float_div items (batch_time_ms r) = Some (throughput r).
Proof.
  intros E. split; [|split].
  - destruct (decide (("torch" : string) ∈ globals)) as [Hin|Hout];
      [exact Hin|]. exfalso.
    rewrite (BenchmarkSpec.benchmark_forward_stops _ _ _ _ _ _ Hout) in E.
    destruct (fst (for_range _ _ w)); inversion E.
  - exact (proj1 (BenchmarkSpec.benchmark_forward_ok _ _ _ _ _ _ _ _ E)).
  - exact (benchmark_forward_chain _ _ _ _ _ _ _ _ E).
Qed.

Lemma benchmark_forward_measures_witness :
  exists r w',
    benchmark_forward (P:=millisecond_clock)
      (benchmark_imports ++ ["BenchmarkResult"; "torch"; "Any"]%string)
      (__init__ 3 10) five_ms_model tt 32 idle = (Ok r, w')
    /\ trace w'
       = replicate 3 Forward ++ [Synchronize; PerfCounter]
         ++ replicate 10 Forward
         ++ [Synchronize; PerfCounter; MaxMemoryAllocated]
    /\ batch_time_ms r = QArith_base.Qmake 5 1
    /\ throughput r = QArith_base.Qmake 6400 1.
Proof.
  destruct (benchmark_forward (P:=millisecond_clock)
              (benchmark_imports ++ ["BenchmarkResult"; "torch"; "Any"]%string)
              (__init__ 3 10) five_ms_model tt 32 idle)
    as [[r|e] w'] eqn:E.
  - exists r, w'. split; [reflexivity|]. split.
    + exact (proj1 (proj2 (benchmark_forward_measures _ _ _ _ _ _ _ _ E))).
    + vm_compute in E. inversion E. split; reflexivity.
  - exfalso. vm_compute in E. discriminate E.
Defined.

(** X17. An exception of the model is not caught: when the first forward
    call raises and [warmup_steps] is positive, [benchmark_forward]
    raises that exception after this one call, in the process state the
    model left, whatever the namespace. *)
Theorem benchmark_forward_model_raises {F : PyFloat} {P : Process}
    (globals : namespace) (self : TorchRecBenchmark) {X Y : Type}
    (model : X -> M proc Y) (sample_input : X) (batch_size : Z)
    (w : world) (e : exn) (p' : proc) :
  0 < warmup_steps self ->
  model sample_input (process w) = (Raise e, p') ->
  benchmark_forward globals self model sample_input batch_size w
  = (Raise e, {| trace := trace w ++ [Forward]; process := p' |}).
Proof.
  intros Hwarm Hmodel. apply benchmark_forward_warmup.
  destruct (Z.to_nat (warmup_steps self)) as [|n] eqn:En; [lia|].
  rewrite for_range_succ, loop_body. unfold call. cbn [emit process trace].
  rewrite Hmodel. reflexivity.
Qed.

Lemma benchmark_forward_model_raises_witness :
  benchmark_forward (P:=millisecond_clock) benchmark_imports (__init__ 3 10)
    (fun (_ : unit) (p : Z) => (@Raise unit ZeroDivisionError, p + 1))
    tt 32 idle
  = (Raise ZeroDivisionError,
     @Build_world exact_float millisecond_clock [Forward] 1).
Proof.
  apply (benchmark_forward_model_raises (P:=millisecond_clock)
           benchmark_imports (__init__ 3 10)
           (fun (_ : unit) (p : Z) => (@Raise unit ZeroDivisionError, p + 1))
           tt 32 idle ZeroDivisionError 1).
  - simpl. lia.
  - reflexivity.
Defined.

Section Steps.
Context {F : PyFloat} {P : Process}.

Lemma load_global_bound globals name (w : world) :
  name ∈ globals -> load_global globals name w = (Ok tt, w).
Proof.
  intros Hin. unfold load_global.
  destruct (decide _) as [_|Hn]; [reflexivity|].
  exfalso. apply Hn, elem_of_app. left. exact Hin.
Qed.

Lemma time_perf_counter_runs (w : world) :
  exists t w',
    time_perf_counter w = (Ok t, w') /\ trace w' = trace w ++ [PerfCounter].
Proof.
  unfold time_perf_counter. destruct (perf_counter _) as [t p].
  eexists _, _. split; reflexivity.
Qed.

End Steps.

Section Synchronization.
Context {F : PyFloat} {P : Process}.

Lemma cuda_synchronize_runs (w : world) :
  (forall p, exists p', synchronize p = (Ok tt, p')) ->
  exists w',
    cuda_synchronize w = (Ok tt, w') /\ trace w' = trace w ++ [Synchronize].
Proof.
  intros Hsync. unfold cuda_synchronize.
  destruct (Hsync (process (emit Synchronize w))) as (p' & Hp).
  rewrite Hp. eexists. split; reflexivity.
Qed.

Lemma cuda_synchronize_raises (w : world) (e : exn) :
  (forall p, exists p', synchronize p = (Raise e, p')) ->
  exists w',
    cuda_synchronize w = (Raise e, w')
    /\ trace w' = trace w ++ [Synchronize].
Proof.
  intros Hsync. unfold cuda_synchronize.
  destruct (Hsync (process (emit Synchronize w))) as (p' & Hp).
  rewrite Hp. eexists. split; reflexivity.
Qed.

End Synchronization.

(** X18. With [measure_steps] 0, on a machine on which the
    synchronization succeeds and in a namespace where the names of the
    body resolve, [benchmark_forward] on a model that does not raise runs
    the warmup calls, synchronizes and reads the clock twice with no
    timed call in between, and then raises a division by zero instead of
    returning a result (for floats in which 1000 and 0 convert and
    dividing by zero is refused). *)
Theorem benchmark_forward_no_measure_steps {F : PyFloat} {P : Process}
    (globals : namespace) (self : TorchRecBenchmark) {X Y : Type}
    (model : X -> M proc Y) (sample_input : X) (batch_size : Z)
    (w : world) :
  ("torch" : string) ∈ globals ->
  ("time" : string) ∈ globals ->
  measure_steps self = 0 ->
  (forall p, exists y p', model sample_input p = (Ok y, p')) ->
  (forall p, exists p', synchronize p = (Ok tt, p')) ->
  is_Some (float_of_int 1000) ->
  (exists zero, float_of_int 0 = Some zero
                /\ forall x, float_div x zero = None) ->
  exists w',
    benchmark_forward globals self model sample_input batch_size w
      = (Raise ZeroDivisionError, w')
    /\ trace w'
       = trace w ++ replicate (Z.to_nat (warmup_steps self)) Forward
         ++ [Synchronize; PerfCounter; Synchronize; PerfCounter].
Proof.
  intros Htorch Htime Hsteps Hmodel Hsync [thousand Hthousand]
    (zero & Hzero & Hdiv).
  unfold benchmark_forward. rewrite Hsteps.
  rewrite (bind_step _ _ _ _ _
             (load_global_builtin globals "range" w range_builtin)).
  destruct (for_range_total model sample_input
              (Z.to_nat (warmup_steps self)) w Hmodel) as (w1 & E1 & T1).
  rewrite (bind_step _ _ _ _ _ E1).
  rewrite (bind_step _ _ _ _ _ (load_global_bound globals "torch" _ Htorch)).
  destruct (cuda_synchronize_runs w1 Hsync) as (w2 & E2 & T2).
  rewrite (bind_step _ _ _ _ _ E2).
  rewrite (bind_step _ _ _ _ _ (load_global_bound globals "time" _ Htime)).
  destruct (time_perf_counter_runs w2) as (start_time & w3 & E3 & T3).
  rewrite (bind_step _ _ _ _ _ E3).
  rewrite (bind_step _ _ _ _ _
             (load_global_builtin globals "range" w3 range_builtin)).
  rewrite (bind_step _ _ _ _ _
             (eq_refl : for_range (Z.to_nat 0) _ w3 = (Ok tt, w3))).
  rewrite (bind_step _ _ _ _ _ (load_global_bound globals "torch" _ Htorch)).
  destruct (cuda_synchronize_runs w3 Hsync) as (w4 & E4 & T4).
  rewrite (bind_step _ _ _ _ _ E4).
  rewrite (bind_step _ _ _ _ _ (load_global_bound globals "time" _ Htime)).
  destruct (time_perf_counter_runs w4) as (end_time & w5 & E5 & T5).
  rewrite (bind_step _ _ _ _ _ E5).
  unfold to_float at 1. rewrite Hthousand.
  rewrite (bind_step _ _ _ _ _ (eq_refl : ret thousand w5 = (Ok thousand, w5))).
  unfold to_float at 1. rewrite Hzero.
  rewrite (bind_step _ _ _ _ _ (eq_refl : ret zero w5 = (Ok zero, w5))).
  unfold true_div at 1. rewrite Hdiv.
  exists w5. split; [reflexivity|].
  rewrite T5, T4, T3, T2, T1. rewrite <- !app_assoc. reflexivity.
Qed.

Lemma benchmark_forward_no_measure_steps_witness :
  exists w',
    benchmark_forward (P:=millisecond_clock)
      (benchmark_imports ++ ["BenchmarkResult"; "torch"; "Any"]%string)
      (__init__ 3 0) five_ms_model tt 32 idle
      = (Raise ZeroDivisionError, w')
    /\ trace w'
       = [] ++ replicate 3 Forward
         ++ [Synchronize; PerfCounter; Synchronize; PerfCounter].
Proof.
  apply (benchmark_forward_no_measure_steps (P:=millisecond_clock)
           (benchmark_imports ++ ["BenchmarkResult"; "torch"; "Any"]%string)
           (__init__ 3 0) five_ms_model tt 32 idle).
  - compute_done.
  - compute_done.
  - reflexivity.
  - intros p. exists tt, (p + 5). reflexivity.
  - intros p. exists p. reflexivity.
  - eexists. reflexivity.
  - eexists. split; [reflexivity|]. intros x. reflexivity.
Defined.

(** X22. On a machine on which the synchronization raises (no
    accelerator), [benchmark_forward] does not measure anything even
    with "torch" bound: on a model that does not raise it makes the
    warmup calls, raises the error of the first synchronization, and
    reads no clock. *)
Theorem benchmark_forward_no_accelerator {F : PyFloat} {P : Process}
    (globals : namespace) (self : TorchRecBenchmark) {X Y : Type}
    (model : X -> M proc Y) (sample_input : X) (batch_size : Z)
    (w : world) (e : exn) :
  ("torch" : string) ∈ globals ->
  (forall p, exists y p', model sample_input p = (Ok y, p')) ->
  (forall p, exists p', synchronize p = (Raise e, p')) ->
  exists w',
    benchmark_forward globals self model sample_input batch_size w
      = (Raise e, w')
    /\ trace w'
       = trace w ++ replicate (Z.to_nat (warmup_steps self)) Forward
         ++ [Synchronize].
Proof.
  intros Htorch Hmodel Hsync. unfold benchmark_forward.
  rewrite (bind_step _ _ _ _ _
             (load_global_builtin globals "range" w range_builtin)).
  destruct (for_range_total model sample_input
              (Z.to_nat (warmup_steps self)) w Hmodel) as (w1 & E1 & T1).
  rewrite (bind_step _ _ _ _ _ E1).
  rewrite (bind_step _ _ _ _ _ (load_global_bound globals "torch" _ Htorch)).
  destruct (cuda_synchronize_raises w1 e Hsync) as (w2 & E2 & T2).
  rewrite (bind_raise _ _ _ _ _ E2).
  exists w2. split; [reflexivity|].
  rewrite T2, T1, <- app_assoc. reflexivity.
Qed.

Lemma benchmark_forward_no_accelerator_witness :
  exists w',
    benchmark_forward (P:=cpu_only_clock)
      (benchmark_imports ++ ["BenchmarkResult"; "torch"; "Any"]%string)
      (__init__ 3 10) five_ms_model tt 32
      (@Build_world exact_float cpu_only_clock [] 0)
      = (Raise CudaUnavailable, w')
    /\ trace w' = [] ++ replicate 3 Forward ++ [Synchronize].
Proof.
  apply (benchmark_forward_no_accelerator (P:=cpu_only_clock)
           (benchmark_imports ++ ["BenchmarkResult"; "torch"; "Any"]%string)
           (__init__ 3 10) five_ms_model tt 32
           (@Build_world exact_float cpu_only_clock [] 0) CudaUnavailable).
  - compute_done.
  - intros p. exists tt, (p + 5). reflexivity.
  - intros p. exists p. reflexivity.
Defined.

End BenchmarkExtra.

(** ** visualization.py and the memory snapshot of debugging.py *)

Module VisualizationExtra.
Import Py Benchmark MemoryStatus Visualization Monitoring Examples.

Section Visualizer.
Context {F : PyFloat}.

(** A comprehension that returned read the key in every snapshot. *)
Lemma series_inr (key : string) (memory_stats : list (gmap string number)) :
  forall ys,
    series key memory_stats = inr ys ->
    length ys = length memory_stats
    /\ Forall (fun s => is_Some (s !! key)) memory_stats.
Proof.
  induction memory_stats as [|s rest IH]; simpl; intros ys E.
  - inversion E. split; [reflexivity | constructor].
  - destruct (s !! key) as [value|] eqn:Hs; [|discriminate E].
    destruct (in_gigabytes value) as [e|y]; [discriminate E|].
    destruct (series key rest) as [e|ys']; [discriminate E|].
    inversion E; subst. destruct (IH ys' eq_refl) as [Hlen Hall].
    split; [simpl; congruence | constructor; [eauto | exact Hall]].
Qed.

(** A snapshot without the key makes the comprehension fail. *)
Lemma series_missing (key : string)
    (memory_stats : list (gmap string number)) :
  Exists (fun s => s !! key = None) memory_stats ->
  exists e, series key memory_stats = inl e.
Proof.
  intros Hmiss. destruct (series key memory_stats) as [e|ys] eqn:E; [eauto|].
  exfalso. apply series_inr in E as [_ Hall].
  apply Exists_exists in Hmiss as (s & Hin & Hnone).
  rewrite Forall_forall in Hall. destruct (Hall s Hin) as [v Hv]. congruence.
Qed.

(** The comprehension returns when every snapshot has a value for the
    key that can be converted. *)
Lemma series_returns (key : string)
    (memory_stats : list (gmap string number)) :
  Forall (fun s => exists value y,
                     s !! key = Some value /\ in_gigabytes value = inr y)
         memory_stats ->
  exists ys, series key memory_stats = inr ys.
Proof.
  induction 1 as [|s rest (value & y & Hs & Hy) _ (ys & IH)]; simpl.
  - eauto.
  - rewrite Hs, Hy, IH. eauto.
Qed.

Lemma range_list_length (n : nat) : length (range_list n) = n.
Proof. unfold range_list. rewrite length_map, length_seq. reflexivity. Qed.

Lemma range_list_lookup (n i : nat) :
  (i < n)%nat -> range_list n !! i = Some (Z.of_nat i).
Proof.
  intros Hi. unfold range_list. rewrite list_lookup_fmap, lookup_seq_lt by lia.
  reflexivity.
Qed.

(** The entries of a snapshot of [memory_status]. *)
Lemma collected_snapshot (m : cuda_memory) :
  snapshot (status_in m) !! "allocated" = Some (Int (memory_allocated m))
  /\ snapshot (status_in m) !! "reserved" = Some (Int (memory_reserved m)).
Proof.
  unfold snapshot, status_in, memory_status. cbn [fst].
  rewrite !lookup_fmap. split.
  - rewrite lookup_insert_eq. reflexivity.
  - rewrite lookup_insert_ne by discriminate.
    rewrite lookup_insert_eq. reflexivity.
Qed.

End Visualizer.

(** X19. When [plot_memory_usage] returns, every snapshot had an
    "allocated" and a "reserved" entry, and the calls on the plotting
    library are, after the earlier ones: a 10 by 5 figure, the two
    curves, the axis labels, the title, the legend and the grid; both
    curves are drawn over the time stamps 0, 1, ... and have, like them,
    exactly one point per snapshot. *)
Theorem plot_memory_usage_draws {F : PyFloat}
    (memory_stats : list (gmap string number))
    (figure figure' : list plot_call) :
  plot_memory_usage memory_stats figure = (inr tt, figure') ->
  exists (timestamps : list Z) (allocated reserved : list float),
    figure'
    = figure ++
      [Figure 10 5;
       Plot timestamps allocated "Allocated";
       Plot timestamps reserved "Reserved";
       Xlabel "Time"; Ylabel "Memory (GB)"; Title "GPU Memory Usage";
       Legend; Grid true]
    /\ length timestamps = length memory_stats
    /\ length allocated = length memory_stats
    /\ length reserved = length memory_stats
    /\ (forall i, (i < length memory_stats)%nat ->
                  timestamps !! i = Some (Z.of_nat i))
    /\ Forall (fun s => is_Some (s !! "allocated")
                        /\ is_Some (s !! "reserved")) memory_stats.
Proof.
  unfold plot_memory_usage.
  destruct (series "allocated" memory_stats) as [e|allocated] eqn:Ea;
    [discriminate|].
  destruct (series "reserved" memory_stats) as [e|reserved] eqn:Er;
    [discriminate|].
  intros E. inversion E; subst; clear E.
  apply series_inr in Ea as [Hla Ha]. apply series_inr in Er as [Hlr Hr].
  exists (range_list (length memory_stats)), allocated, reserved.
  split; [reflexivity|]. split; [apply range_list_length|].
  split; [exact Hla|]. split; [exact Hlr|]. split.
  - intros i Hi. apply range_list_lookup, Hi.
  - rewrite Forall_forall in Ha, Hr. apply Forall_forall. intros s Hs.
    split; [apply Ha, Hs | apply Hr, Hs].
Qed.

Lemma plot_memory_usage_draws_witness :
  exists allocated reserved : list (@float exact_float),
    snd (plot_memory_usage (collect three_states) [])
    = [Figure 10 5;
       Plot [0; 1; 2] allocated "Allocated";
       Plot [0; 1; 2] reserved "Reserved";
       Xlabel "Time"; Ylabel "Memory (GB)"; Title "GPU Memory Usage";
       Legend; Grid true]
    /\ length allocated = 3%nat /\ length reserved = 3%nat.
Proof.
  destruct (plot_memory_usage (F:=exact_float) (collect three_states) [])
    as [[e|[]] figure'] eqn:E.
  - exfalso. vm_compute in E. discriminate E.
  - destruct (plot_memory_usage_draws _ _ _ E)
      as (timestamps & allocated & reserved & Hfig & Ht & Ha & Hr & Hi & _).
    exists allocated, reserved. split; [|split; assumption].
    cbn [snd]. rewrite Hfig. cbn [app].
    destruct timestamps as [|t0 [|t1 [|t2 [|t3 rest]]]]; try discriminate Ht.
    pose proof (Hi 0%nat ltac:(simpl; lia)) as H0.
    pose proof (Hi 1%nat ltac:(simpl; lia)) as H1.
    pose proof (Hi 2%nat ltac:(simpl; lia)) as H2.
    cbn in H0, H1, H2. inversion H0. inversion H1. inversion H2.
    reflexivity.
Defined.

(** X20. When [plot_memory_usage] raises, nothing has been drawn: the
    calls on the plotting library are the earlier ones.  It raises
    whenever a snapshot lacks its "allocated" or its "reserved" entry,
    and the error is the key error for "allocated" when the first
    snapshot lacks that entry. *)
Theorem plot_memory_usage_missing_key {F : PyFloat}
    (memory_stats : list (gmap string number)) (figure : list plot_call) :
  (forall e figure',
      plot_memory_usage memory_stats figure = (inl e, figure') ->
      figure' = figure)
  /\ (Exists (fun s => s !! "allocated" = None \/ s !! "reserved" = None)
             memory_stats ->
      exists e, plot_memory_usage memory_stats figure = (inl e, figure))
  /\ (forall s rest,
         memory_stats = s :: rest -> s !! "allocated" = None ->
         plot_memory_usage memory_stats figure
         = (inl (KeyError "allocated"), figure)).
Proof.
  split; [|split].
  - intros e figure'. unfold plot_memory_usage.
    destruct (series "allocated" memory_stats); [congruence|].
    destruct (series "reserved" memory_stats); congruence.
  - intros Hmiss. unfold plot_memory_usage.
    destruct (series "allocated" memory_stats) as [e|allocated] eqn:Ea;
      [eauto|].
    destruct (series "reserved" memory_stats) as [e|reserved] eqn:Er;
      [eauto|].
    exfalso. apply series_inr in Ea as [_ Ha]. apply series_inr in Er as [_ Hr].
    apply Exists_exists in Hmiss as (s & Hin & Hnone).
    rewrite Forall_forall in Ha, Hr.
    destruct (Ha s Hin) as [a Hsa]. destruct (Hr s Hin) as [r Hsr].
    destruct Hnone; congruence.
  - intros s rest -> Hs. unfold plot_memory_usage. simpl. rewrite Hs.
    reflexivity.
Qed.

Lemma plot_memory_usage_missing_key_witness :
  exists e,
    plot_memory_usage (collect three_states ++ [partial_snapshot])
      [Figure 4 3]
    = (inl e, [Figure 4 3 : @plot_call exact_float]).
Proof.
  apply (plot_memory_usage_missing_key (F:=exact_float)
           (collect three_states ++ [partial_snapshot]) [Figure 4 3]).
  apply Exists_app. right. constructor. right. reflexivity.
Defined.

(** X21. The snapshots of [memory_status] can always be plotted: a list
    of snapshots collected by [memory_status] in any allocator states has
    the entries [plot_memory_usage] reads, so the plot is drawn, with one
    point per snapshot, and no key error is raised (for counters that
    convert to floats, and floats in which dividing by 1e9 is defined). *)
Theorem memory_status_snapshots_plot {F : PyFloat}
    (ms : list cuda_memory) (figure : list plot_call) :
  (forall x, is_Some (float_div x float_1e9)) ->
  Forall (fun m => is_Some (float_of_int (memory_allocated m))
                   /\ is_Some (float_of_int (memory_reserved m))) ms ->
  exists figure',
    plot_memory_usage (collect ms) figure = (inr tt, figure')
    /\ length figure' = (length figure + 8)%nat.
Proof.
  intros Hdiv Hconv.
  assert (forall z, is_Some (float_of_int z) ->
                    exists y, in_gigabytes (Int z) = inr y) as Hgb.
  { intros z [x Hx]. simpl. rewrite Hx. destruct (Hdiv x) as [q Hq].
    rewrite Hq. eauto. }
  assert (exists allocated, series "allocated" (collect ms) = inr allocated)
    as [allocated Ea].
  { apply series_returns. unfold collect. apply Forall_map.
    eapply Forall_impl; [exact Hconv|]. intros m [Ha _]. cbn beta.
    destruct (Hgb _ Ha) as [y Hy].
    exists (Int (memory_allocated m)), y.
    split; [apply collected_snapshot | exact Hy]. }
  assert (exists reserved, series "reserved" (collect ms) = inr reserved)
    as [reserved Er].
  { apply series_returns. unfold collect. apply Forall_map.
    eapply Forall_impl; [exact Hconv|]. intros m [_ Hr]. cbn beta.
    destruct (Hgb _ Hr) as [y Hy].
    exists (Int (memory_reserved m)), y.
    split; [apply collected_snapshot | exact Hy]. }
  unfold plot_memory_usage. rewrite Ea, Er.
  eexists. split; [reflexivity|]. rewrite length_app. reflexivity.
Qed.

Lemma memory_status_snapshots_plot_witness :
  exists figure',
    plot_memory_usage (F:=exact_float) (collect three_states) []
      = (inr tt, figure')
    /\ length figure' = 8%nat.
Proof.
  apply (memory_status_snapshots_plot (F:=exact_float) three_states []).
  - intros x. eexists. reflexivity.
  - repeat constructor; eexists; reflexivity.
Defined.

End VisualizationExtra.
